(** * Live_Trading: the portfolio ledger and the daily decision loop

    A shallow embedding of [state_manager.py] (class [PortfolioManager]) and
    of the decision part of [decision_engine.py] (class
    [LiveDecisionEngine]), with the properties of the bookkeeping engine
    proved about it.

    Numbers.  The Python code computes on binary64 floating-point numbers
    (in the decision loop they are numpy's, whose division by zero yields an
    infinity or a NaN and raises nothing).  The program below is written
    once, over an interface [Num] of the
    arithmetic operations the code uses, and is run at two instances:
    - [float]: Rocq's primitive binary64 numbers, the numbers of the code;
    - [Qc]: exact rationals, the "decimal amounts" of the data model.
    Properties that only depend on the control flow are proved for every
    instance.  Properties that need algebra are proved for [Qc], and for
    [float] where the IEEE specification of the operations gives them.
    Concrete runs are evaluated at [float]. *)

From Stdlib Require Import ZArith QArith Qcanon Floats Lia.
From stdpp Require Import gmap strings list fin_maps pretty.

Local Open Scope Z_scope.

(** ** The arithmetic interface *)

Class Num (N : Type) := {
  nadd : N -> N -> N;          (* a + b *)
  nsub : N -> N -> N;          (* a - b *)
  nmul : N -> N -> N;          (* a * b *)
  ndiv : N -> N -> N;          (* a / b *)
  nltb : N -> N -> bool;       (* a < b *)
  of_Z : Z -> N;               (* an integer literal *)
  trunc : N -> option Z        (* int(a): truncation towards zero *)
}.

Declare Scope num_scope.
Delimit Scope num_scope with num.
Infix "+" := nadd : num_scope.
Infix "-" := nsub : num_scope.
Infix "*" := nmul : num_scope.
Infix "/" := ndiv : num_scope.
Notation "a <? b" := (nltb a b) : num_scope.
Notation "a >? b" := (nltb b a) : num_scope.

(** A decimal literal [m]e-[k], such as [0.0015 = dec 15 4]: the quotient of
    two exactly represented integers, correctly rounded at [float], which is
    how the literal is read by Python. *)
Definition dec {N} `{Num N} (m : Z) (k : nat) : N :=
  (of_Z m / of_Z (10 ^ Z.of_nat k))%num.

(** [not (x < 0)], as Python evaluates it. *)
Definition not_negative {N} `{Num N} (x : N) : bool := negb (x <? of_Z 0)%num.

(** The two facts about signs that keep the cash from going negative: a
    subtraction that passed the guard [not (t > c)], and an addition of two
    numbers that are not negative.  Both arithmetics have them. *)
Class SignLaws (N : Type) `{Num N} : Prop := {
  sub_not_negative : ∀ c t : N,
    (t >? c)%num = false → not_negative (c - t)%num = true;
  add_not_negative : ∀ c n : N,
    not_negative c = true → not_negative n = true →
    not_negative (c + n)%num = true
}.

(** *** Binary64 *)

Module F64.

(** The integer literals of the code are small; the conversion is exact
    below [2^53]. *)
Definition of_Z (z : Z) : float :=
  match z with
  | Z0 => PrimFloat.of_uint63 (Uint63.of_Z 0)
  | Zpos _ => PrimFloat.of_uint63 (Uint63.of_Z z)
  | Zneg p => PrimFloat.opp (PrimFloat.of_uint63 (Uint63.of_Z (Zpos p)))
  end.

(** [int(x)]: [None] stands for the exception Python raises on a NaN or an
    infinity. *)
Definition trunc (x : float) : option Z :=
  match Prim2SF x with
  | S754_zero _ => Some 0
  | S754_finite s m e =>
      let a := match e with
               | Z0 => Zpos m
               | Zpos p => Zpos m * 2 ^ Zpos p
               | Zneg p => Zpos m / 2 ^ Zpos p
               end in
      Some (if s then - a else a)
  | S754_infinity _ | S754_nan => None
  end.

(** Neither a NaN nor an infinity. *)
Definition is_finite (x : float) : bool :=
  match Prim2SF x with
  | S754_zero _ | S754_finite _ _ _ => true
  | S754_infinity _ | S754_nan => false
  end.

End F64.

#[export] Instance float_num : Num float := {
  nadd := PrimFloat.add;
  nsub := PrimFloat.sub;
  nmul := PrimFloat.mul;
  ndiv := PrimFloat.div;
  nltb := PrimFloat.ltb;
  of_Z := F64.of_Z;
  trunc := F64.trunc
}.

(** *** Exact rationals

    [x / 0] is [0] in [Qc]; where a division matters, the properties proved
    at this instance take the divisor to be positive. *)

Module Exact.

Definition ltb (a b : Qc) : bool :=
  match (a ?= b)%Qc with Lt => true | _ => false end.

Definition of_Z (z : Z) : Qc := Q2Qc (inject_Z z).

Definition trunc (a : Qc) : option Z :=
  Some (Z.quot (Qnum (this a)) (Zpos (Qden (this a)))).

End Exact.

#[export] Instance Qc_num : Num Qc := {
  nadd := Qcplus;
  nsub := Qcminus;
  nmul := Qcmult;
  ndiv := Qcdiv;
  nltb := Exact.ltb;
  of_Z := Exact.of_Z;
  trunc := Exact.trunc
}.

(** How a call ends: it returns, or the process exits ([exit(code)]), or an
    exception escapes.  A call that can end in these ways yields its outcome
    together with the environment it leaves.

    [Foreign] is the fourth way: the call returned, with JSON that is not a
    ledger state in the place of the state.  There is no type for such a
    value here and the run is followed no further: what a later call does
    with it (a [KeyError] on a dictionary without the key, a [TypeError] on a
    list, or a run on the keys that are there) depends on the value. *)
Inductive Outcome (A : Type) : Type :=
  | Returned (a : A)
  | Exited (code : Z)
  | Raised (exn : string)
  | Foreign.
Arguments Returned {A} a.
Arguments Exited {A} code.
Arguments Raised {A} exn.
Arguments Foreign {A}.

(** What [json.load(f)] makes of a file opened in text mode: the bytes are
    not text in the encoding ([UnicodeDecodeError], a [ValueError] that is
    not a [json.JSONDecodeError]); the text is not JSON
    ([json.JSONDecodeError]); the text is JSON of another shape than a
    ledger state, which [json.load] returns as it is; or it is a ledger
    state. *)
Inductive Parsed (S : Type) : Type :=
  | NotText
  | NotJson
  | OtherJson
  | LedgerState (s : S).
Arguments NotText {S}.
Arguments NotJson {S}.
Arguments OtherJson {S}.
Arguments LedgerState {S} s.

(** What the file system holds besides the files, as far as the constructor
    meets it.  Each field gives the exception that a system call on a path
    raises, if any:
    - [read_error path]: the path exists without being a file, so that
      [os.path.exists(path)] is true and [open(path, 'r')] raises (for a
      directory, [IsADirectoryError]);
    - [write_error path]: [open(path, 'w')] raises (when the directory of
      the path does not exist, [FileNotFoundError]);
    - [replace_error path]: [os.replace(_, path)] raises (for the empty
      path, [FileNotFoundError]). *)
Record Paths := {
  read_error : string -> option string;
  write_error : string -> option string;
  replace_error : string -> option string
}.

(** ** Data model

    The state is the dictionary that [json.load] returns and [json.dump]
    writes: [cash], [positions] (a dictionary keyed by asset), [history] (a
    list) and [last_updated]. *)

Section Ledger.

Context {N : Type} `{Num N}.

(** A value of [state["positions"]]. *)
Record Position := {
  qty : N;
  entry_price : N;
  entry_date : string
}.

(** An element of [state["history"]].  The key ["entry_price"] of the source
    is [trade_entry_price] here, the name [entry_price] being taken by
    [Position]. *)
Record ClosedTrade := {
  asset : string;
  trade_entry_price : N;
  exit_price : N;
  pnl_net : N;
  exit_date : string
}.

Record PortfolioState := {
  cash : N;
  positions : gmap string Position;
  history : list ClosedTrade;
  last_updated : string
}.

(** ** The environment

    The files of the working directory and the clock.  [files] maps a path to
    the text it holds.  [now k] is what [str(datetime.now())] returns at the
    [k]-th reading of the clock; [ticks] counts the readings so far.  The
    text type and the JSON codec are those of the [json] library, taken as
    given: [json_dump] is [json.dump(_, f, indent=4)] and [json_load] is
    [json.load] on a file opened for reading.  [fs] is what the file system
    answers for the paths the constructor touches. *)

Context {Text : Type}.
Variable json_dump : PortfolioState -> Text.
Variable json_load : Text -> Parsed PortfolioState.
Variable now : nat -> string.
Variable fs : Paths.

Record World := {
  files : gmap string Text;
  ticks : nat
}.

Definition datetime_now (w : World) : string * World :=
  (now (ticks w), {| files := files w; ticks := S (ticks w) |}).

(** [with open(path, 'w') as f: f.write(text)] *)
Definition write_file (path : string) (text : Text) (w : World) : World :=
  {| files := <[path := text]> (files w); ticks := ticks w |}.

(** [os.replace(src, dst)]: [dst] now holds what [src] held and [src] is
    gone.  A missing [src] raises in Python; it leaves the files as they are
    here, and [_save] never meets the case. *)
Definition os_replace (src dst : string) (w : World) : World :=
  match files w !! src with
  | Some text =>
      {| files := <[dst := text]> (delete src (files w)); ticks := ticks w |}
  | None => w
  end.

(** ** class PortfolioManager *)

Record PortfolioManager := {
  filename : string;
  initial_capital : N;
  state : PortfolioState
}.

Definition set_last_updated (s : PortfolioState) (t : string) : PortfolioState :=
  {| cash := cash s; positions := positions s; history := history s;
     last_updated := t |}.

(** [_save(self, state_dict)]: the dictionary passed in is stamped in place,
    written to [filename + ".tmp"], moved over [filename], and becomes
    [self.state]. *)
Definition _save (self : PortfolioManager) (state_dict : PortfolioState)
    (w : World) : PortfolioManager * World :=
  let temp_file := (filename self ++ ".tmp")%string in
  let (t, w1) := datetime_now w in
  let state_dict := set_last_updated state_dict t in
  let w2 := write_file temp_file (json_dump state_dict) w1 in
  let w3 := os_replace temp_file (filename self) w2 in
  ({| filename := filename self; initial_capital := initial_capital self;
      state := state_dict |}, w3).

(** [_save] as the constructor calls it, on a path of which nothing is known
    yet: [open] raises when the staging file cannot be created, after the
    dictionary has been stamped and before anything is written;
    [os.replace] raises when the staging file cannot be moved over the
    name, and the staging file is left behind.  When neither raises this is
    [_save].  The calls of [_save] by [execute_buy] and [execute_sell] are
    made by a manager that exists, whose file was read or created in its
    directory; they are taken to succeed. *)
Definition _save_outcome (self : PortfolioManager)
    (state_dict : PortfolioState) (w : World)
    : Outcome PortfolioManager * World :=
  let temp_file := (filename self ++ ".tmp")%string in
  let (t, w1) := datetime_now w in
  let state_dict := set_last_updated state_dict t in
  match write_error fs temp_file with
  | Some exn => (Raised exn, w1)
  | None =>
      let w2 := write_file temp_file (json_dump state_dict) w1 in
      match replace_error fs (filename self) with
      | Some exn => (Raised exn, w2)
      | None =>
          (Returned {| filename := filename self;
                       initial_capital := initial_capital self;
                       state := state_dict |},
           os_replace temp_file (filename self) w2)
      end
  end.

(** [_load_or_create(self)], called from [__init__] before [self.state]
    exists: it is given the file name and the initial capital.  Only
    [json.JSONDecodeError] is caught; [json.load] returns whatever JSON the
    file holds. *)
Definition _load_or_create (fname : string) (capital : N) (w : World)
    : Outcome PortfolioState * World :=
  match files w !! fname with
  | Some text =>
      match json_load text with
      | LedgerState s => (Returned s, w)
      | OtherJson => (Foreign, w)
      | NotJson => (Exited 1, w)
      | NotText => (Raised "UnicodeDecodeError", w)
      end
  | None =>
      match read_error fs fname with
      | Some exn => (Raised exn, w)
      | None =>
          let (t, w1) := datetime_now w in
          let default_state :=
            {| cash := capital; positions := ∅; history := [];
               last_updated := t |} in
          let self0 := {| filename := fname; initial_capital := capital;
                          state := default_state |} in
          match _save_outcome self0 default_state w1 with
          | (Returned self1, w2) => (Returned (state self1), w2)
          | (Exited c, w2) => (Exited c, w2)
          | (Raised e, w2) => (Raised e, w2)
          | (Foreign, w2) => (Foreign, w2)
          end
      end
  end.

(** [PortfolioManager(filename, initial_capital)] *)
Definition PortfolioManager_init (fname : string) (capital : N) (w : World)
    : Outcome PortfolioManager * World :=
  match _load_or_create fname capital w with
  | (Returned s, w') =>
      (Returned {| filename := fname; initial_capital := capital;
                   state := s |}, w')
  | (Exited c, w') => (Exited c, w')
  | (Raised e, w') => (Raised e, w')
  | (Foreign, w') => (Foreign, w')
  end.

Definition get_cash (self : PortfolioManager) : N := cash (state self).

Definition get_active_positions_count (self : PortfolioManager) : nat :=
  size (positions (state self)).

Definition get_position (self : PortfolioManager) (a : string)
    : option Position :=
  positions (state self) !! a.

Definition default_fee_rate : N := dec 15 4.

(** [execute_buy(self, asset, price, qty, fee_rate)] *)
Definition execute_buy (self : PortfolioManager) (a : string)
    (price qty fee_rate : N) (w : World) : bool * PortfolioManager * World :=
  let cost := (qty * price)%num in
  let fee := (cost * fee_rate)%num in
  let total_deduction := (cost + fee)%num in
  if (total_deduction >? cash (state self))%num then (false, self, w)
  else
    let s := state self in
    let (t, w1) := datetime_now w in
    let s1 :=
      {| cash := (cash s - total_deduction)%num;
         positions :=
           <[a := {| qty := qty; entry_price := price; entry_date := t |}]>
             (positions s);
         history := history s;
         last_updated := last_updated s |} in
    let (self', w2) := _save self s1 w1 in
    (true, self', w2).

(** [execute_sell(self, asset, price, fee_rate)] *)
Definition execute_sell (self : PortfolioManager) (a : string)
    (price fee_rate : N) (w : World) : bool * PortfolioManager * World :=
  match positions (state self) !! a with
  | None => (false, self, w)
  | Some position =>
      let s := state self in
      let q := qty position in
      let entry := entry_price position in
      let gross_value := (q * price)%num in
      let fee := (gross_value * fee_rate)%num in
      let net_value := (gross_value - fee)%num in
      let pnl := (net_value - q * entry)%num in
      let (t, w1) := datetime_now w in
      let s1 :=
        {| cash := (cash s + net_value)%num;
           positions := delete a (positions s);
           history :=
             history s ++
             [ {| asset := a; trade_entry_price := entry; exit_price := price;
                  pnl_net := pnl; exit_date := t |} ];
           last_updated := last_updated s |} in
      let (self', w2) := _save self s1 w1 in
      (true, self', w2)
  end.

(** *** The results of the calls, written out *)

(** What [_save] leaves behind, written out. *)
Definition saved_state (s : PortfolioState) (w : World)
    : PortfolioState :=
  set_last_updated s (now (ticks w)).

Definition saved_world (fname : string) (s : PortfolioState)
    (w : World) : World :=
  {| files :=
       <[fname := json_dump (saved_state s w)]>
         (delete (fname ++ ".tmp")%string
            (<[(fname ++ ".tmp")%string := json_dump (saved_state s w)]>
               (files w)));
     ticks := S (ticks w) |}.

(** The state [execute_buy] commits, before [_save] stamps it. *)
Definition bought (s : PortfolioState) (a : string) (price q fee_rate : N)
    (t : string) : PortfolioState :=
  {| cash := (cash s - (q * price + q * price * fee_rate))%num;
     positions :=
       <[a := {| qty := q; entry_price := price; entry_date := t |}]>
         (positions s);
     history := history s;
     last_updated := last_updated s |}.

(** The state [execute_sell] commits for the position [pos] of [a]. *)
Definition net_value (pos : Position) (price fee_rate : N) : N :=
  (qty pos * price - qty pos * price * fee_rate)%num.

Definition closed_trade (a : string) (pos : Position) (price fee_rate : N)
    (t : string) : ClosedTrade :=
  {| asset := a; trade_entry_price := entry_price pos; exit_price := price;
     pnl_net := (net_value pos price fee_rate - qty pos * entry_price pos)%num;
     exit_date := t |}.

Definition sold (s : PortfolioState) (a : string) (pos : Position)
    (price fee_rate : N) (t : string) : PortfolioState :=
  {| cash := (cash s + net_value pos price fee_rate)%num;
     positions := delete a (positions s);
     history := history s ++ [closed_trade a pos price fee_rate t];
     last_updated := last_updated s |}.

(** *** Sequences of calls *)

(** A sequence of calls into the ledger, and the states it goes through. *)
Inductive Op :=
  | OpBuy (a : string) (price qty fee_rate : N)
  | OpSell (a : string) (price fee_rate : N).

Definition apply_op (st : PortfolioManager * World) (op : Op)
    : PortfolioManager * World :=
  match op with
  | OpBuy a price q fee_rate =>
      let '(_, self, w) := execute_buy st.1 a price q fee_rate st.2 in (self, w)
  | OpSell a price fee_rate =>
      let '(_, self, w) := execute_sell st.1 a price fee_rate st.2 in (self, w)
  end.

(** The states after the first call, after the second, and so on. *)
Fixpoint run_ops (ops : list Op) (st : PortfolioManager * World)
    : list (PortfolioManager * World) :=
  match ops with
  | [] => []
  | op :: rest => let st' := apply_op st op in st' :: run_ops rest st'
  end.

(** The net value of every sale that the sequence executes is not
    negative. *)
Definition sale_not_negative (st : PortfolioManager * World) (op : Op) : bool :=
  match op with
  | OpBuy _ _ _ _ => true
  | OpSell a price fee_rate =>
      match get_position st.1 a with
      | Some pos => not_negative (net_value pos price fee_rate)
      | None => true
      end
  end.

Fixpoint sales_not_negative (ops : list Op) (st : PortfolioManager * World)
    : bool :=
  match ops with
  | [] => true
  | op :: rest =>
      sale_not_negative st op && sales_not_negative rest (apply_op st op)
  end.

End Ledger.

(** ** class LiveDecisionEngine

    [fetch_market_data] downloads the prices and computes the indicators; the
    decision loop only reads the last row of each column, which is what a
    [Bar] holds.  [market_data] is the dictionary the loop iterates over, in
    its order.  Logging and the dashboard write to files of their own and
    never touch the portfolio; they are left out. *)

Section Engine.

Context {N : Type} `{Num N} {Text : Type}.
Variable json_dump : @PortfolioState N -> Text.
Variable json_load : Text -> Parsed (@PortfolioState N).
Variable now : nat -> string.
Variable fs : Paths.

Record Bar := {
  Close : N;      (* data['Close'].iloc[-1] *)
  Max_50 : N;     (* data['Max_50'].iloc[-1] *)
  Min_20 : N;     (* data['Min_20'].iloc[-1] *)
  ADX : N         (* data['ADX'].iloc[-1] *)
}.

Record LiveDecisionEngine := {
  assets : list string;
  risk_per_trade : N;
  max_global_risk : N;
  max_positions : Z;
  portfolio : @PortfolioManager N
}.

Definition set_portfolio (self : LiveDecisionEngine) (p : @PortfolioManager N)
    : LiveDecisionEngine :=
  {| assets := assets self; risk_per_trade := risk_per_trade self;
     max_global_risk := max_global_risk self;
     max_positions := max_positions self; portfolio := p |}.

(** [LiveDecisionEngine()]; [int] raises on a NaN or an infinity. *)
Definition LiveDecisionEngine_init (w : @World Text)
    : Outcome LiveDecisionEngine * @World Text :=
  let risk := dec 2 2 in
  let global := dec 6 2 in
  match trunc (global / risk)%num with
  | None => (Raised "ValueError", w)
  | Some cap =>
      match PortfolioManager_init json_dump json_load now fs
              "live_paper_trading.json" (of_Z 10000) w with
      | (Returned p, w') =>
          (Returned {| assets := ["BTC-USD"; "ETH-USD"; "SPY"; "GC=F"]%string;
                       risk_per_trade := risk; max_global_risk := global;
                       max_positions := cap; portfolio := p |}, w')
      | (Exited c, w') => (Exited c, w')
      | (Raised e, w') => (Raised e, w')
      | (Foreign, w') => (Foreign, w')
      end
  end.

(** Python's [min(a, b)] on two numbers: [b] when [b < a], else [a]. *)
Definition py_min (a b : N) : N := if (b <? a)%num then b else a.

(** Lines 103 to 112 of [run_daily_execution], the sizing of a position:
    [None] when the guard [risk_per_coin > 0] fails and nothing is computed. *)
Definition size_position (available_capital risk_fraction entry stop : N)
    : option N :=
  let risk_amount := (available_capital * risk_fraction)%num in
  let risk_per_coin := (entry - stop)%num in
  if (risk_per_coin >? of_Z 0)%num then
    let q := (risk_amount / risk_per_coin)%num in
    let max_qty := (available_capital / entry)%num in
    Some (py_min q max_qty)
  else None.

(** The calls the loop makes into the ledger, in order. *)
Inductive LedgerCall :=
  | Sell (a : string) (price : N)
  | Buy (a : string) (price qty : N).

Definition LoopState : Type :=
  LiveDecisionEngine * @World Text * list LedgerCall.

(** One iteration of the first loop (exits). *)
Definition exit_step (st : LoopState) (item : string * Bar) : LoopState :=
  let '(self, w, calls) := st in
  let (a, data) := item in
  match get_position (portfolio self) a with
  | Some _ =>
      let current_price := Close data in
      let min_20 := Min_20 data in
      if (current_price <? min_20)%num then
        let '(_, p, w') :=
          execute_sell json_dump now (portfolio self) a current_price
            default_fee_rate w in
        (set_portfolio self p, w', calls ++ [Sell a current_price])
      else st
  | None => st
  end.

(** One iteration of the second loop (entries). *)
Definition entry_step (st : LoopState) (item : string * Bar) : LoopState :=
  let '(self, w, calls) := st in
  let (a, data) := item in
  match get_position (portfolio self) a with
  | Some _ => st
  | None =>
      let current_price := Close data in
      let max_50 := Max_50 data in
      let adx_val := ADX data in
      if (max_positions self <=?
            Z.of_nat (get_active_positions_count (portfolio self)))%Z
      then st
      else if (current_price >? max_50)%num then
        if (adx_val >? of_Z 25)%num then
          let stop_price := Min_20 data in
          let portfolio_value := get_cash (portfolio self) in
          match size_position portfolio_value (risk_per_trade self)
                  current_price stop_price with
          | Some q =>
              let '(_, p, w') :=
                execute_buy json_dump now (portfolio self) a current_price q
                  default_fee_rate w in
              (set_portfolio self p, w', calls ++ [Buy a current_price q])
          | None => st
          end
        else st
      else st
  end.

Definition exit_pass (st : LoopState) (market_data : list (string * Bar))
    : LoopState :=
  fold_left exit_step market_data st.

Definition entry_pass (st : LoopState) (market_data : list (string * Bar))
    : LoopState :=
  fold_left entry_step market_data st.

(** [run_daily_execution(self)], from the market data on. *)
Definition run_daily_execution (self : LiveDecisionEngine)
    (market_data : list (string * Bar)) (w : @World Text) : LoopState :=
  entry_pass (exit_pass (self, w, []) market_data) market_data.

(** The guard of the sizing, [risk_per_coin > 0]. *)
Definition risk_positive (entry stop : N) : bool :=
  (entry - stop >? of_Z 0)%num.

(** [c] is an [execute_buy] call for the asset [a]. *)
Definition buys (a : string) (c : LedgerCall) : Prop :=
  match c with
  | Buy b _ _ => b = a
  | Sell _ _ => False
  end.

End Engine.

(** ** Running the model

    For a run, the text of a file is taken to be the state it encodes (a
    codec that trivially round-trips), and the clock returns the number of
    the reading. *)

Definition stamp (k : nat) : string := pretty k.

Definition run_dump {N} (s : @PortfolioState N) : @PortfolioState N := s.
Definition run_load {N} (t : @PortfolioState N) : Parsed (@PortfolioState N) :=
  LedgerState t.

(** A working directory in which every file can be created. *)
Definition plain_paths : Paths :=
  {| read_error := λ _, None; write_error := λ _, None;
     replace_error := λ _, None |}.

(** A working directory without the directory [no_such_dir]. *)
Definition no_such_dir : Paths :=
  {| read_error := λ _, None;
     write_error := λ path,
       if String.prefix "no_such_dir/" path then Some "FileNotFoundError"%string
       else None;
     replace_error := λ _, None |}.

(** Files that may hold anything: the text of a file is what [json.load]
    makes of it. *)
Definition disk_dump {N} (s : @PortfolioState N) : Parsed (@PortfolioState N) :=
  LedgerState s.
Definition disk_load {N} (t : Parsed (@PortfolioState N))
    : Parsed (@PortfolioState N) := t.

Definition empty_world {N} : @World (@PortfolioState N) :=
  {| files := ∅; ticks := 0 |}.

Definition fresh {N} `{Num N} (capital : N) : @PortfolioManager N :=
  {| filename := "portfolio_state.json"; initial_capital := capital;
     state := {| cash := capital; positions := ∅; history := [];
                 last_updated := "" |} |}.

(** ** Exact arithmetic: the calls and the states of a sound ledger *)

(** The calls for which the cash is kept non-negative: a purchase of a
    non-negative quantity; a sale at a non-negative price with a fee rate of
    at most one. *)
Definition sound_op (op : @Op Qc) : Prop :=
  match op with
  | OpBuy _ _ q _ => (0 <= q)%Qc
  | OpSell _ price fee_rate => (0 <= price)%Qc ∧ (fee_rate <= 1)%Qc
  end.

(** The states in which it is: no debt, and no short position. *)
Definition solvent (self : @PortfolioManager Qc) : Prop :=
  (0 <= cash (state self))%Qc
  ∧ map_Forall (λ _ pos, (0 <= qty pos)%Qc) (positions (state self)).

(** ** Concrete inputs *)

(** The cash after each call of a sequence. *)
Definition cash_after {N Text : Type}
    (sts : list (@PortfolioManager N * @World Text)) : list N :=
  map (λ st, cash (state st.1)) sts.

(** From a cash of 10000, buy 1000 units at 10 with no fee, then sell them
    at -5 with the default fee rate: the cash that is left. *)
Definition negative_price_run {N : Type} `{Num N} : N :=
  cash (state (fold_left (apply_op run_dump stamp)
                 [OpBuy "CL=F" (of_Z 10) (of_Z 1000) (of_Z 0);
                  OpSell "CL=F" (of_Z (-5)) default_fee_rate]
                 (fresh (of_Z 10000), empty_world)).1).

(** From a cash of 10000, buy [2^600] units at [2^-600], for a cost of 1, and
    sell them at [2^600] with the default fee rate: quantities, prices and
    fee rates are all positive.  In binary64 the gross of the sale
    overflows. *)
Definition overflow_ops : list (@Op float) :=
  [OpBuy "X" 0x1p-600%float 0x1p600%float default_fee_rate;
   OpSell "X" 0x1p600%float default_fee_rate].

Definition overflow_run : float :=
  cash (state (fold_left (apply_op run_dump stamp) overflow_ops
                 (fresh (of_Z 10000), empty_world)).1).

(** A manager that holds one unit bought at 0.5 with its last cash, and the
    files it has written. *)
Definition one_unit : @PortfolioManager float * @World (@PortfolioState float) :=
  apply_op run_dump stamp (fresh (dec 5 1), empty_world)
    (OpBuy "X" (dec 5 1) (of_Z 1) (of_Z 0)).

(** A manager that holds three positions, and the files it has written. *)
Definition three_positions : @PortfolioManager float * @World (@PortfolioState float) :=
  fold_left (apply_op run_dump stamp)
    [OpBuy "BTC-USD" (of_Z 60000) (dec 5 2) default_fee_rate;
     OpBuy "ETH-USD" (of_Z 3000) (of_Z 1) default_fee_rate;
     OpBuy "SPY" (of_Z 500) (of_Z 4) default_fee_rate]
    (fresh (of_Z 10000), empty_world).

(** The file of the engine with these three positions in it, and the engine
    that the constructor builds on it. *)
Definition live_world : @World (@PortfolioState float) :=
  {| files := {[ "live_paper_trading.json"%string := state three_positions.1 ]};
     ticks := ticks three_positions.2 |}.

Definition live_engine : @LiveDecisionEngine float :=
  {| assets := ["BTC-USD"; "ETH-USD"; "SPY"; "GC=F"]%string;
     risk_per_trade := dec 2 2; max_global_risk := dec 6 2;
     max_positions := 3;
     portfolio := {| filename := "live_paper_trading.json";
                     initial_capital := of_Z 10000;
                     state := state three_positions.1 |} |}.

(** The engine around it, configured as the constructor does. *)
Definition engine_at_cap : @LiveDecisionEngine float :=
  {| assets := ["BTC-USD"; "ETH-USD"; "SPY"; "GC=F"]%string;
     risk_per_trade := dec 2 2; max_global_risk := dec 6 2;
     max_positions := 3; portfolio := three_positions.1 |}.

(** A breakout of gold with a strong trend: above the 50-day high, [ADX]
    at 60, the stop well below the price. *)
Definition strong_signal : list (string * @Bar float) :=
  [("GC=F"%string,
    {| Close := of_Z 2000; Max_50 := of_Z 1900; Min_20 := of_Z 1800;
       ADX := of_Z 60 |})].

(** A stop at the entry price. *)
Definition flat_signal : @Bar float :=
  {| Close := of_Z 100; Max_50 := of_Z 95; Min_20 := of_Z 100;
     ADX := of_Z 60 |}.

(** An engine on a new portfolio of 10000, and a breakout of gold, in either
    arithmetic. *)
Definition paper_engine {N : Type} `{Num N} : @LiveDecisionEngine N :=
  {| assets := ["BTC-USD"; "ETH-USD"; "SPY"; "GC=F"]%string;
     risk_per_trade := dec 2 2; max_global_risk := dec 6 2;
     max_positions := 3; portfolio := fresh (of_Z 10000) |}.

Definition breakout {N : Type} `{Num N} : list (string * @Bar N) :=
  [("GC=F"%string,
    {| Close := of_Z 2000; Max_50 := of_Z 1900; Min_20 := of_Z 1800;
       ADX := of_Z 60 |})].

(** The index fund closes below its 20-day low while gold breaks out. *)
Definition stop_and_breakout : list (string * @Bar float) :=
  ("SPY"%string,
   {| Close := of_Z 400; Max_50 := of_Z 520; Min_20 := of_Z 450;
      ADX := of_Z 30 |}) :: strong_signal.

(** Gold on its first days of data: the close is there, the 50-day high and
    the ADX are not. *)
Definition warming_up : list (string * @Bar float) :=
  [("GC=F"%string,
    {| Close := of_Z 2000; Max_50 := PrimFloat.nan; Min_20 := of_Z 1800;
       ADX := PrimFloat.nan |})].

(** A file of somebody else. *)
Definition shared_world : @World (@PortfolioState float) :=
  {| files := <["notes.json" := state (fresh (of_Z 1))]> (files three_positions.2);
     ticks := ticks three_positions.2 |}.

(** ** The rest of the two files, and the notions their properties use *)

(** The comparison law that ties the exit test to the sizing guard: a price
    below the stop leaves no positive risk per unit.  Both arithmetics have
    it. *)
Class OrderLaws (N : Type) `{Num N} : Prop := {
  below_not_positive : ∀ a b : N,
    (a <? b)%num = true → (a - b >? of_Z 0)%num = false
}.

(** A NaN: what [rolling(...)] and the ADX give before their window is
    full. *)
Definition float_is_nan (x : float) : bool :=
  match Prim2SF x with
  | S754_nan => true
  | _ => false
  end.

Section LedgerMore.

Context {N : Type} `{Num N} {Text : Type}.
Variable json_dump : @PortfolioState N -> Text.
Variable json_load : Text -> Parsed (@PortfolioState N).
Variable now : nat -> string.
Variable fs : Paths.

(** The state a sequence of calls ends in. *)
Definition run_all (ops : list (@Op N))
    (st : @PortfolioManager N * @World Text)
    : @PortfolioManager N * @World Text :=
  fold_left (apply_op json_dump now) ops st.

(** The durable file decodes to the state in memory. *)
Definition synced (self : @PortfolioManager N) (w : @World Text) : Prop :=
  ∃ text, files w !! filename self = Some text
          ∧ json_load text = LedgerState (state self).

(** The [if __name__ == "__main__":] block of [state_manager.py]: load or
    create the test portfolio, buy bitcoin unless it is held, sell it.  When
    the constructor does not return a ledger, the script ends as the
    constructor did. *)
Definition state_manager_main (w : @World Text)
    : Outcome (@PortfolioManager N) * @World Text :=
  match PortfolioManager_init json_dump json_load now fs
          "test_paper_trading.json" (of_Z 10000) w with
  | (Returned portfolio, w1) =>
      let '(portfolio1, w2) :=
        match get_position portfolio "BTC-USD" with
        | Some _ => (portfolio, w1)
        | None =>
            let '(_, p, w') :=
              execute_buy json_dump now portfolio "BTC-USD" (of_Z 60000)
                (dec 5 2) default_fee_rate w1 in
            (p, w')
        end in
      let '(_, portfolio2, w3) :=
        execute_sell json_dump now portfolio1 "BTC-USD" (of_Z 65000)
          default_fee_rate w2 in
      (Returned portfolio2, w3)
  | (Exited c, w1) => (Exited c, w1)
  | (Raised e, w1) => (Raised e, w1)
  | (Foreign, w1) => (Foreign, w1)
  end.

End LedgerMore.

Section EngineMore.

Context {N : Type} `{Num N}.

(** The position the loop state holds for an asset. *)
Definition held {Text : Type}
    (st : @LiveDecisionEngine N * @World Text * list (@LedgerCall N))
    (a : string) : option (@Position N) :=
  get_position (portfolio st.1.1) a.

(** The number of open positions, and the closed trades, of a loop
    state. *)
Definition open_count {Text : Type}
    (st : @LiveDecisionEngine N * @World Text * list (@LedgerCall N)) : nat :=
  get_active_positions_count (portfolio st.1.1).

Definition trade_history {Text : Type}
    (st : @LiveDecisionEngine N * @World Text * list (@LedgerCall N))
    : list (@ClosedTrade N) :=
  history (state (portfolio st.1.1)).

(** The sale calls of a trace, counted. *)
Definition is_sale (c : @LedgerCall N) : bool :=
  match c with
  | Sell _ _ => true
  | Buy _ _ _ => false
  end.

Definition sales_made (calls : list (@LedgerCall N)) : nat :=
  length (List.filter is_sale calls).

(** The asset a ledger call is about. *)
Definition call_asset (c : @LedgerCall N) : string :=
  match c with
  | Sell a _ => a
  | Buy a _ _ => a
  end.

(** What the market data must show for a call to have been made: a sale
    needs a close below the 20-day low; a purchase needs a close above the
    50-day high, an ADX above 25 and a positive risk per unit, and is made at
    the close. *)
Definition justified (market_data : list (string * @Bar N))
    (c : @LedgerCall N) : Prop :=
  match c with
  | Sell a price =>
      ∃ data, (a, data) ∈ market_data ∧ price = Close data
              ∧ (Close data <? Min_20 data)%num = true
  | Buy a price q =>
      ∃ data, (a, data) ∈ market_data ∧ price = Close data
              ∧ (Close data >? Max_50 data)%num = true
              ∧ (ADX data >? of_Z 25)%num = true
              ∧ risk_positive (Close data) (Min_20 data) = true
  end.

End EngineMore.

(** * Properties *)

(** ** The ledger, for every arithmetic *)

Section LedgerFacts.

Context {N : Type} `{Num N} {Text : Type}.
Variable json_dump : @PortfolioState N -> Text.
Variable json_load : Text -> Parsed (@PortfolioState N).
Variable now : nat -> string.
Variable fs : Paths.

Local Abbreviation save := (_save json_dump now).
Local Abbreviation buy := (execute_buy json_dump now).
Local Abbreviation sell := (execute_sell json_dump now).
Local Abbreviation saved_state := (saved_state now).
Local Abbreviation saved_world := (saved_world json_dump now).

Lemma string_length_app (s1 s2 : string) :
  String.length (s1 ++ s2)%string = (String.length s1 + String.length s2)%nat.
Proof. induction s1 as [|c s1 IH]; simpl; [reflexivity | now rewrite IH]. Qed.

(** The staging file is never the durable one. *)
Lemma temp_file_fresh (f : string) : (f ++ ".tmp")%string ≠ f.
Proof.
  intros E. apply (f_equal String.length) in E.
  rewrite string_length_app in E. simpl in E. lia.
Qed.

Lemma _save_eq self s w :
  save self s w =
  ({| filename := filename self; initial_capital := initial_capital self;
      state := saved_state s w |},
   saved_world (filename self) s w).
Proof.
  unfold _save, datetime_now, write_file, os_replace; simpl.
  rewrite lookup_insert_eq. reflexivity.
Qed.

Lemma saved_world_durable fname s w :
  files (saved_world fname s w) !! fname = Some (json_dump (saved_state s w)).
Proof. unfold saved_world; simpl. apply lookup_insert_eq. Qed.

Lemma saved_world_staging fname s w :
  files (saved_world fname s w) !! (fname ++ ".tmp")%string = None.
Proof.
  unfold saved_world; simpl.
  rewrite lookup_insert_ne by (intros E; symmetry in E; revert E; apply temp_file_fresh).
  apply lookup_delete_eq.
Qed.

Lemma execute_buy_eq self a price q fee_rate w :
  buy self a price q fee_rate w =
  if (q * price + q * price * fee_rate >? cash (state self))%num
  then (false, self, w)
  else
    let w1 := {| files := files w; ticks := S (ticks w) |} in
    let s1 := bought (state self) a price q fee_rate (now (ticks w)) in
    (true,
     {| filename := filename self; initial_capital := initial_capital self;
        state := saved_state s1 w1 |},
     saved_world (filename self) s1 w1).
Proof.
  unfold execute_buy, datetime_now.
  destruct (_ >? _)%num; [reflexivity|].
  cbv zeta. rewrite _save_eq. reflexivity.
Qed.

Lemma execute_sell_eq self a price fee_rate w :
  sell self a price fee_rate w =
  match get_position self a with
  | None => (false, self, w)
  | Some pos =>
      let w1 := {| files := files w; ticks := S (ticks w) |} in
      let s1 := sold (state self) a pos price fee_rate (now (ticks w)) in
      (true,
       {| filename := filename self; initial_capital := initial_capital self;
          state := saved_state s1 w1 |},
       saved_world (filename self) s1 w1)
  end.
Proof.
  unfold execute_sell, get_position, datetime_now.
  destruct (positions (state self) !! a); [|reflexivity].
  cbv zeta. rewrite _save_eq. reflexivity.
Qed.

(** C2.  [execute_buy] computes [cost = qty * price], [fee = cost * fee_rate]
    and [total = cost + fee].  When [total > cash] it returns [False] and
    the manager and the files are exactly as before.  Otherwise it returns
    [True], the cash is the old cash minus [total], the position of the
    asset holds the quantity and the price, the history is untouched, and
    the durable file holds the new state. *)
Theorem execute_buy_spec self a price q fee_rate w :
  let cost := (q * price)%num in
  let fee := (cost * fee_rate)%num in
  let total := (cost + fee)%num in
  let r := buy self a price q fee_rate w in
  if (total >? cash (state self))%num
  then r = (false, self, w)
  else r.1.1 = true
       ∧ cash (state r.1.2) = (cash (state self) - total)%num
       ∧ get_position r.1.2 a =
           Some {| qty := q; entry_price := price;
                   entry_date := now (ticks w) |}
       ∧ history (state r.1.2) = history (state self)
       ∧ files r.2 !! filename r.1.2 = Some (json_dump (state r.1.2)).
Proof.
  cbv zeta. rewrite execute_buy_eq.
  destruct (_ >? _)%num; [reflexivity|].
  cbv zeta. repeat split.
  - unfold get_position; simpl. apply lookup_insert_eq.
  - exact (saved_world_durable _ _ _).
Qed.

(** [execute_sell] returns [False] exactly when the asset has no position.
    Otherwise it returns [True]; with [gross = qty * price],
    [fee = gross * fee_rate] and [net = gross - fee], the cash is the old
    cash plus [net], the history is the old one followed by one closed
    trade whose profit is [net - qty * entry_price], and the asset has no
    position any more. *)
Lemma execute_sell_steps self a price fee_rate w :
  let r := sell self a price fee_rate w in
  (r.1.1 = false ↔ get_position self a = None)
  ∧ match get_position self a with
    | None => r = (false, self, w)
    | Some pos =>
        let net := (qty pos * price - qty pos * price * fee_rate)%num in
        r.1.1 = true
        ∧ cash (state r.1.2) = (cash (state self) + net)%num
        ∧ history (state r.1.2) =
            history (state self) ++
            [ {| asset := a; trade_entry_price := entry_price pos;
                 exit_price := price;
                 pnl_net := (net - qty pos * entry_price pos)%num;
                 exit_date := now (ticks w) |} ]
        ∧ get_position r.1.2 a = None
    end.
Proof.
  cbv zeta. rewrite execute_sell_eq.
  destruct (get_position self a) as [pos|] eqn:E; cbv zeta; simpl.
  - split; [split; discriminate|].
    repeat split. unfold get_position; simpl. apply lookup_delete_eq.
  - split; [tauto|]. reflexivity.
Qed.

Lemma _save_outcome_ok self s w :
  write_error fs (filename self ++ ".tmp")%string = None →
  replace_error fs (filename self) = None →
  _save_outcome json_dump now fs self s w
  = (Returned (save self s w).1, (save self s w).2).
Proof.
  intros Hw Hr. unfold _save_outcome, _save, datetime_now.
  now rewrite Hw, Hr.
Qed.

(** C8, as it holds.  [_load_or_create], and with it the constructor:
    - with no file under the name, when the staging file can be created and
      moved over the name, it returns a state whose cash is the initial
      capital and whose positions and history are empty, and the file now
      holds that state;
    - with no file under the name, when the staging file cannot be created
      (the directory of the name does not exist), the exception of [open]
      escapes, no state is returned and no file is written; when it cannot
      be moved over the name, the exception of [os.replace] escapes and the
      name still has no file;
    - with a path that exists without being a file, the exception of [open]
      escapes;
    - with a file that is not JSON, the call ends in [exit(1)]; with a file
      that is not text in the encoding, a [UnicodeDecodeError] escapes; in
      both cases no state is returned and the files are left as they are;
    - with a file that holds a ledger state, that state is returned, and
      with JSON of another shape, that JSON; the files are left as they
      are. *)
Theorem load_or_create_spec fname capital w :
  let load := _load_or_create json_dump json_load now fs fname capital w in
  let init := PortfolioManager_init json_dump json_load now fs fname capital w in
  match files w !! fname with
  | None =>
      match read_error fs fname with
      | Some exn => load = (Raised exn, w) ∧ init = (Raised exn, w)
      | None =>
          match write_error fs (fname ++ ".tmp")%string with
          | Some exn =>
              ∃ w', load = (Raised exn, w') ∧ init = (Raised exn, w')
                    ∧ files w' = files w
          | None =>
              match replace_error fs fname with
              | Some exn =>
                  ∃ w', load = (Raised exn, w') ∧ init = (Raised exn, w')
                        ∧ files w' !! fname = None
              | None =>
                  ∃ s w',
                    load = (Returned s, w')
                    ∧ init = (Returned {| filename := fname;
                                          initial_capital := capital;
                                          state := s |}, w')
                    ∧ cash s = capital ∧ positions s = ∅ ∧ history s = []
                    ∧ files w' !! fname = Some (json_dump s)
              end
          end
      end
  | Some text =>
      match json_load text with
      | NotJson => load = (Exited 1, w) ∧ init = (Exited 1, w)
      | NotText =>
          load = (Raised "UnicodeDecodeError", w)
          ∧ init = (Raised "UnicodeDecodeError", w)
      | OtherJson => load = (Foreign, w) ∧ init = (Foreign, w)
      | LedgerState s =>
          load = (Returned s, w)
          ∧ init = (Returned {| filename := fname; initial_capital := capital;
                                state := s |}, w)
      end
  end.
Proof.
  cbv zeta. unfold PortfolioManager_init, _load_or_create.
  destruct (files w !! fname) as [text|] eqn:Hfile.
  - destruct (json_load text); split; reflexivity.
  - destruct (read_error fs fname) as [exn|]; [split; reflexivity|].
    unfold datetime_now, _save_outcome. cbn [filename datetime_now].
    destruct (write_error fs (fname ++ ".tmp")%string) as [exn|].
    { eexists. split; [reflexivity|]. split; reflexivity. }
    destruct (replace_error fs fname) as [exn|].
    { eexists. split; [reflexivity|]. split; [reflexivity|].
      unfold write_file; cbn [files].
      rewrite lookup_insert_ne by apply temp_file_fresh. exact Hfile. }
    eexists _, _. split; [reflexivity|]. split; [reflexivity|].
    cbn [state set_last_updated cash positions history].
    repeat split.
    unfold os_replace, write_file; cbn [files].
    rewrite lookup_insert_eq. cbn [files]. apply lookup_insert_eq.
Qed.

(** C9.  [_save] followed by [_load_or_create] on the same name returns the
    state that [_save] wrote, in all its fields.  That state is the one
    passed in with only [last_updated] replaced by the time of the call.
    The text goes to the staging file first, during which the durable file
    still holds what it held; afterwards the durable file holds the new
    text and the staging file is gone.  The codec is assumed to read back
    what it wrote. *)
Theorem save_load_roundtrip
    (Hcodec : ∀ s, json_load (json_dump s) = LedgerState s)
    self s w capital :
  let r := save self s w in
  let staged :=
    write_file (filename self ++ ".tmp")%string (json_dump (state r.1))
      (datetime_now now w).2 in
  _load_or_create json_dump json_load now fs (filename self) capital r.2
    = (Returned (state r.1), r.2)
  ∧ cash (state r.1) = cash s
  ∧ positions (state r.1) = positions s
  ∧ history (state r.1) = history s
  ∧ last_updated (state r.1) = now (ticks w)
  ∧ files staged !! filename self = files w !! filename self
  ∧ r.2 = os_replace (filename self ++ ".tmp")%string (filename self) staged
  ∧ files r.2 !! filename self = Some (json_dump (state r.1))
  ∧ files r.2 !! (filename self ++ ".tmp")%string = None.
Proof.
  cbv zeta. rewrite _save_eq. cbn [fst snd state].
  repeat split.
  - unfold _load_or_create. rewrite saved_world_durable, Hcodec. reflexivity.
  - unfold write_file, datetime_now; simpl.
    apply lookup_insert_ne, temp_file_fresh.
  - unfold os_replace, write_file, datetime_now; simpl.
    rewrite lookup_insert_eq. reflexivity.
  - exact (saved_world_durable _ _ _).
  - exact (saved_world_staging _ _ _).
Qed.

(** C10.  For distinct assets [a] and [b], neither [execute_buy] nor
    [execute_sell] on [a] changes the position of [b], whether the call
    succeeds or is rejected.  [execute_buy] leaves the history as it is;
    [execute_sell] keeps every entry of the history in place and adds one
    entry at the end when it succeeds, none when it is rejected. *)
Theorem other_asset_frame self a b price q fee_rate w (Hab : a ≠ b) :
  let rb := buy self a price q fee_rate w in
  let rs := sell self a price fee_rate w in
  get_position rb.1.2 b = get_position self b
  ∧ history (state rb.1.2) = history (state self)
  ∧ get_position rs.1.2 b = get_position self b
  ∧ ∃ tail, history (state rs.1.2) = history (state self) ++ tail
            ∧ length tail = (if rs.1.1 then 1 else 0)%nat.
Proof.
  cbv zeta. rewrite execute_buy_eq, execute_sell_eq.
  repeat split.
  - destruct (_ >? _)%num; [reflexivity|].
    unfold get_position; simpl. now apply lookup_insert_ne.
  - destruct (_ >? _)%num; reflexivity.
  - destruct (get_position self a); [|reflexivity].
    unfold get_position; simpl. now apply lookup_delete_ne.
  - destruct (get_position self a) as [pos|]; simpl.
    + eexists; split; reflexivity.
    + exists []. split; [now rewrite app_nil_r | reflexivity].
Qed.

End LedgerFacts.

(** ** The cash is not negative, for an arithmetic with the sign laws *)

Section SignFacts.

Context {N : Type} `{SignLaws N} {Text : Type}.
Variable json_dump : @PortfolioState N -> Text.
Variable now : nat -> string.

Lemma apply_op_not_negative (st : @PortfolioManager N * @World Text) op :
  not_negative (cash (state st.1)) = true →
  sale_not_negative st op = true →
  not_negative (cash (state (apply_op json_dump now st op).1)) = true.
Proof.
  destruct st as [self w]. intros Hcash Hsale.
  destruct op as [a price q fee_rate | a price fee_rate]; cbn [apply_op fst snd].
  - rewrite execute_buy_eq.
    destruct (nltb _ _) eqn:G; [exact Hcash|].
    cbn [fst snd state cash saved_state set_last_updated bought].
    now apply sub_not_negative.
  - rewrite execute_sell_eq. cbn [sale_not_negative fst] in Hsale.
    destruct (get_position self a) as [pos|]; [|exact Hcash].
    cbn [fst snd state cash saved_state set_last_updated sold].
    now apply add_not_negative.
Qed.

Lemma run_ops_not_negative ops (st : @PortfolioManager N * @World Text) :
  not_negative (cash (state st.1)) = true →
  sales_not_negative json_dump now ops st = true →
  Forall (λ st', not_negative (cash (state st'.1)) = true)
         (run_ops json_dump now ops st).
Proof.
  revert st. induction ops as [|op rest IH]; intros st Hcash Hsales.
  - constructor.
  - cbn [sales_not_negative] in Hsales.
    apply andb_prop in Hsales as [Hsale Hrest].
    pose proof (apply_op_not_negative st op Hcash Hsale) as Hcash'.
    cbn [run_ops]. constructor; [exact Hcash' | now apply IH].
Qed.

End SignFacts.

(** ** The decision loop, for every arithmetic *)

Section EngineFacts.

Context {N : Type} `{Num N} {Text : Type}.
Variable json_dump : @PortfolioState N -> Text.
Variable json_load : Text -> Parsed (@PortfolioState N).
Variable now : nat -> string.
Variable fs : Paths.

Local Abbreviation exit1 := (exit_step json_dump now).
Local Abbreviation entry1 := (entry_step json_dump now).
Local Abbreviation exits := (exit_pass json_dump now).
Local Abbreviation entries := (entry_pass json_dump now).

Lemma size_position_eq (capital fraction entry stop : N) :
  size_position capital fraction entry stop =
  if risk_positive entry stop
  then Some (py_min (capital * fraction / (entry - stop))%num
                    (capital / entry)%num)
  else None.
Proof. reflexivity. Qed.

(** An iteration of the entry loop at the cap does nothing. *)
Lemma entry_step_capped self (w : @World Text) calls item :
  (max_positions self
     <= Z.of_nat (get_active_positions_count (portfolio self)))%Z →
  entry1 (self, w, calls) item = (self, w, calls).
Proof.
  intros Hcap. destruct item as [a data]. unfold entry_step.
  destruct (get_position (portfolio self) a); [reflexivity|].
  apply Z.leb_le in Hcap. rewrite Hcap. reflexivity.
Qed.

Lemma entry_pass_capped self (w : @World Text) calls market_data :
  (max_positions self
     <= Z.of_nat (get_active_positions_count (portfolio self)))%Z →
  entries (self, w, calls) market_data = (self, w, calls).
Proof.
  intros Hcap. unfold entry_pass.
  induction market_data as [|item rest IH]; cbn [fold_left]; [reflexivity|].
  rewrite entry_step_capped by exact Hcap. exact IH.
Qed.

(** An iteration of the entry loop with a sizing that is refused does
    nothing. *)
Lemma entry_step_refused self (w : @World Text) calls a data :
  risk_positive (Close data) (Min_20 data) = false →
  entry1 (self, w, calls) (a, data) = (self, w, calls).
Proof.
  intros Hrisk. unfold entry_step.
  rewrite size_position_eq, Hrisk.
  destruct (get_position (portfolio self) a); [reflexivity|].
  destruct (_ <=? _)%Z; [reflexivity|].
  destruct (_ >? _)%num; [|reflexivity].
  destruct (_ >? _)%num; reflexivity.
Qed.

(** The calls of one iteration: the exit loop only sells, the entry loop only
    buys the asset of the iteration. *)
Lemma exit_step_calls (st : LoopState) item :
  ∃ l, (exit1 st item).2 = st.2 ++ l ∧ ∀ a c, c ∈ l → ¬ buys a c.
Proof.
  destruct st as [[self w] calls], item as [b data]. unfold exit_step.
  destruct (get_position (portfolio self) b).
  2: { exists []. split; [simpl; now rewrite app_nil_r | intros ? ? ?%elem_of_nil; done]. }
  destruct (_ <? _)%num.
  2: { exists []. split; [simpl; now rewrite app_nil_r | intros ? ? ?%elem_of_nil; done]. }
  destruct (execute_sell _ _ _ _ _ _ _) as [[ok pm] w'].
  eexists. split; [reflexivity|].
  intros a c ->%list_elem_of_singleton. simpl. tauto.
Qed.

Lemma entry_step_calls (st : LoopState) item :
  ∃ l, (entry1 st item).2 = st.2 ++ l
       ∧ ∀ a c, c ∈ l → buys a c →
           a = item.1
           ∧ risk_positive (Close item.2) (Min_20 item.2) = true.
Proof.
  destruct (risk_positive (Close item.2) (Min_20 item.2)) eqn:Hrisk.
  - destruct st as [[self w] calls], item as [b data]. unfold entry_step.
    set (nothing := ex_intro
      (λ l, (self, w, calls).2 = (self, w, calls).2 ++ l
            ∧ ∀ a c, c ∈ l → buys a c → a = (b, data).1 ∧ true = true)
      [] (conj (eq_sym (app_nil_r calls))
               (λ a c (Hc : c ∈ []) _, False_ind _ (not_elem_of_nil c Hc)))).
    destruct (get_position (portfolio self) b); [exact nothing|].
    destruct (_ <=? _)%Z; [exact nothing|].
    destruct (_ >? _)%num; [|exact nothing].
    destruct (_ >? _)%num; [|exact nothing].
    destruct (size_position _ _ _ _) as [q|]; [|exact nothing].
    destruct (execute_buy _ _ _ _ _ _ _) as [[ok pm] w'].
    eexists. split; [reflexivity|].
    intros a c ->%list_elem_of_singleton Hb. simpl in Hb. now subst.
  - destruct st as [[self w] calls], item as [b data].
    rewrite entry_step_refused by exact Hrisk.
    exists []. split; [simpl; now rewrite app_nil_r|].
    intros ? ? ?%elem_of_nil; done.
Qed.

Lemma exit_pass_calls (st : LoopState) market_data :
  ∃ l, (exits st market_data).2 = st.2 ++ l ∧ ∀ a c, c ∈ l → ¬ buys a c.
Proof.
  unfold exit_pass. revert st.
  induction market_data as [|item rest IH]; intros st; cbn [fold_left].
  - exists []. split; [now rewrite app_nil_r | intros ? ? ?%elem_of_nil; done].
  - destruct (exit_step_calls st item) as (l1 & E1 & H1).
    destruct (IH (exit1 st item)) as (l2 & E2 & H2).
    exists (l1 ++ l2). split.
    + rewrite E2, E1. now rewrite app_assoc.
    + intros a c [Hc|Hc]%elem_of_app; eauto.
Qed.

Lemma entry_pass_calls (st : LoopState) market_data :
  ∃ l, (entries st market_data).2 = st.2 ++ l
       ∧ ∀ a c, c ∈ l → buys a c →
           ∃ data, (a, data) ∈ market_data
                   ∧ risk_positive (Close data) (Min_20 data) = true.
Proof.
  unfold entry_pass. revert st.
  induction market_data as [|item rest IH]; intros st; cbn [fold_left].
  - exists []. split; [now rewrite app_nil_r | intros ? ? ?%elem_of_nil; done].
  - destruct (entry_step_calls st item) as (l1 & E1 & H1).
    destruct (IH (entry1 st item)) as (l2 & E2 & H2).
    exists (l1 ++ l2). split.
    + rewrite E2, E1. now rewrite app_assoc.
    + intros a c [Hc|Hc]%elem_of_app Hb.
      * destruct (H1 a c Hc Hb) as [-> Hr]. exists item.2. split; [|exact Hr].
        destruct item; simpl. apply list_elem_of_here.
      * destruct (H2 a c Hc Hb) as (data & Hin & Hr). exists data.
        split; [now apply list_elem_of_further | exact Hr].
Qed.

(** In a whole cycle, an asset whose sizing is refused is not bought. *)
Lemma run_daily_no_buy self market_data (w : @World Text) a :
  (∀ data, (a, data) ∈ market_data →
           risk_positive (Close data) (Min_20 data) = false) →
  ∀ c, c ∈ (run_daily_execution json_dump now self market_data w).2 →
       ¬ buys a c.
Proof.
  intros Hrefused c Hc Hb. unfold run_daily_execution in Hc.
  destruct (exit_pass_calls (self, w, []) market_data) as (l1 & E1 & H1).
  destruct (entry_pass_calls (exits (self, w, []) market_data) market_data)
    as (l2 & E2 & H2).
  rewrite E2, E1 in Hc. simpl in Hc.
  apply elem_of_app in Hc as [Hc|Hc].
  - exact (H1 a c Hc Hb).
  - destruct (H2 a c Hc Hb) as (data & Hin & Hr).
    rewrite (Hrefused data Hin) in Hr. discriminate.
Qed.

End EngineFacts.

(** ** Exact arithmetic *)

Section ExactFacts.

Context {Text : Type}.
Variable json_dump : @PortfolioState Qc -> Text.
Variable json_load : Text -> Parsed (@PortfolioState Qc).
Variable now : nat -> string.

Local Open Scope Qc_scope.

Lemma exact_ltb_lt (a b : Qc) : Exact.ltb a b = true ↔ a < b.
Proof.
  unfold Exact.ltb. rewrite Qclt_alt.
  destruct (a ?= b); split; congruence.
Qed.

Lemma exact_ltb_ge (a b : Qc) : Exact.ltb a b = false ↔ b <= a.
Proof.
  split.
  - intros E. apply Qcnot_lt_le. intros L%exact_ltb_lt. congruence.
  - intros L. destruct (Exact.ltb a b) eqn:E; [|reflexivity].
    apply exact_ltb_lt in E. now apply Qcle_not_lt in L.
Qed.

Lemma exact_sub_nonneg (a b : Qc) : b <= a → 0 <= a - b.
Proof. intros L. now apply Qcle_minus_iff in L. Qed.

Lemma exact_net_nonneg (q p f : Qc) :
  0 <= q → 0 <= p → f <= 1 → 0 <= q * p - q * p * f.
Proof.
  intros Hq Hp Hf.
  replace (q * p - q * p * f) with (q * p * (1 - f)) by ring.
  apply Qcmult_nonneg_nonneg; [now apply Qcmult_nonneg_nonneg|].
  now apply exact_sub_nonneg.
Qed.

Lemma exact_not_negative (x : Qc) : not_negative x = true ↔ 0 <= x.
Proof.
  unfold not_negative. rewrite negb_true_iff. exact (exact_ltb_ge x 0).
Qed.

#[export] Instance exact_sign_laws : SignLaws Qc.
Proof.
  split.
  - intros c t G. apply exact_not_negative, exact_sub_nonneg.
    now apply exact_ltb_ge in G.
  - intros c n Hc%exact_not_negative Hn%exact_not_negative.
    apply exact_not_negative. now apply Qcplus_nonneg_nonneg.
Qed.

Lemma apply_op_solvent (st : @PortfolioManager Qc * @World Text) op :
  solvent st.1 → sound_op op →
  solvent (apply_op json_dump now st op).1.
Proof.
  destruct st as [self w]. intros [Hcash Hpos] Hop.
  destruct op as [a price q fee_rate | a price fee_rate]; simpl in *.
  - rewrite execute_buy_eq.
    destruct (nltb _ _) eqn:G; [now split|].
    apply exact_ltb_ge in G. split; simpl.
    + now apply exact_sub_nonneg.
    + now apply map_Forall_insert_2.
  - destruct Hop as [Hp Hf]. rewrite execute_sell_eq.
    destruct (get_position self a) as [pos|] eqn:E; [|now split].
    split; simpl.
    + apply Qcplus_nonneg_nonneg; [exact Hcash|].
      apply exact_net_nonneg; [|exact Hp|exact Hf].
      exact (Hpos a pos E).
    + now apply map_Forall_delete.
Qed.

Lemma run_ops_solvent ops (st : @PortfolioManager Qc * @World Text) :
  solvent st.1 → Forall sound_op ops →
  Forall (λ st', solvent st'.1) (run_ops json_dump now ops st).
Proof.
  revert st. induction ops as [|op rest IH]; intros st Hst Hops; simpl.
  - constructor.
  - inversion_clear Hops as [|? ? Hop Hrest].
    pose proof (apply_op_solvent st op Hst Hop) as Hst'.
    constructor; [exact Hst' | now apply IH].
Qed.

(** In exact arithmetic, a purchase and the sale that follows it, at the same
    price and without fee, cancel. *)
Lemma buy_sell_same_price_exact self a price q (w : @World Text) :
  let rb := execute_buy json_dump now self a price q (of_Z 0) w in
  rb.1.1 = true →
  let rs := execute_sell json_dump now rb.1.2 a price (of_Z 0) rb.2 in
  rs.1.1 = true
  ∧ (∃ trade, history (state rs.1.2) = history (state self) ++ [trade]
              ∧ pnl_net trade = 0)
  ∧ cash (state rs.1.2) = cash (state self).
Proof.
  cbv zeta. rewrite execute_buy_eq.
  destruct (nltb _ _); [discriminate|]. intros _.
  cbv zeta. cbn [fst snd]. rewrite execute_sell_eq.
  match goal with |- context [get_position ?pm a] =>
    assert (get_position pm a =
            Some {| qty := q; entry_price := price;
                    entry_date := now (ticks w) |}) as ->
      by (unfold get_position; simpl; apply lookup_insert_eq)
  end.
  cbv zeta. cbn [fst snd state].
  change (@of_Z Qc Qc_num 0%Z) with 0.
  split; [reflexivity|]. split.
  - eexists. split; [reflexivity|].
    unfold closed_trade, net_value; simpl. ring.
  - unfold net_value; simpl. ring.
Qed.

End ExactFacts.

(** ** Binary64

    Facts about the primitive numbers, through their specification
    [Prim2SF]. *)

Section Binary64Facts.

Local Open Scope Z_scope.

Lemma digits2_pos_size p : digits2_pos p = Pos.size p.
Proof. induction p; simpl; congruence. Qed.

Lemma digits2_upper (m : positive) : Zpos m < 2 ^ Zpos (digits2_pos m).
Proof.
  rewrite digits2_pos_size.
  pose proof (Pos.size_gt m) as G.
  apply Pos2Z.pos_lt_pos in G. rewrite Pos2Z.inj_pow in G. exact G.
Qed.

Lemma digits2_lower (m : positive) : 2 ^ (Zpos (digits2_pos m) - 1) <= Zpos m.
Proof.
  rewrite digits2_pos_size.
  pose proof (Pos.size_le m) as G.
  apply Pos2Z.pos_le_pos in G. rewrite Pos2Z.inj_pow in G.
  change (Z.pos m~0) with (2 * Z.pos m) in G.
  replace (Zpos (Pos.size m)) with (Z.succ (Zpos (Pos.size m) - 1)) in G at 1 by lia.
  rewrite Z.pow_succ_r in G by lia. lia.
Qed.

Lemma shl_align_fst (mx : positive) (ex ez : Z) :
  ez <= ex → Zpos (fst (shl_align mx ex ez)) = Zpos mx * 2 ^ (ex - ez).
Proof.
  intros L. unfold shl_align.
  destruct (ez - ex) as [|d|d] eqn:E; cbn [fst].
  - replace (ex - ez) with 0 by lia. rewrite Z.pow_0_r. lia.
  - lia.
  - replace (ex - ez) with (Zpos d) by lia.
    change (Pos.iter xO mx d) with (shift_pos d mx).
    rewrite shift_pos_correct, Z.pow_pos_fold. lia.
Qed.

(** A binary64 number in canonical form: the mantissa has at most [prec]
    digits, and exactly [prec] above the least exponent. *)
Lemma bounded_digits (m : positive) (e : Z) :
  bounded prec emax m e = true →
  Zpos (digits2_pos m) <= prec
  ∧ (SpecFloat.emin prec emax < e → Zpos (digits2_pos m) = prec)
  ∧ SpecFloat.emin prec emax <= e.
Proof.
  unfold bounded, canonical_mantissa, fexp.
  intros [C _]%andb_prop. apply Z.eqb_eq in C.
  unfold prec, emax, SpecFloat.emin in *. lia.
Qed.

(** Of two positive canonical numbers, the one with the lesser exponent, or
    with the same exponent and the lesser mantissa, has the lesser value. *)
Lemma aligned_le (mx my : positive) (ex ey : Z) :
  bounded prec emax mx ex = true → bounded prec emax my ey = true →
  ex < ey ∨ (ex = ey ∧ Zpos mx <= Zpos my) →
  Zpos (fst (shl_align mx ex (Z.min ex ey)))
  <= Zpos (fst (shl_align my ey (Z.min ex ey))).
Proof.
  intros Bx By Hc.
  rewrite !shl_align_fst by lia.
  destruct Hc as [L|[E Hm]].
  - rewrite Z.min_l by lia. rewrite Z.sub_diag, Z.pow_0_r.
    destruct (bounded_digits _ _ Bx) as (Dx & _ & Ex).
    destruct (bounded_digits _ _ By) as (_ & Dy & _).
    specialize (Dy ltac:(lia)).
    pose proof (digits2_upper mx) as Ux.
    pose proof (digits2_lower my) as Ly. rewrite Dy in Ly.
    assert (2 ^ Zpos (digits2_pos mx) <= 2 ^ prec) as P1
      by (apply Z.pow_le_mono_r; lia).
    assert (2 ^ 1 <= 2 ^ (ey - ex)) as P2 by (apply Z.pow_le_mono_r; lia).
    assert (2 ^ prec = 2 ^ (prec - 1) * 2 ^ 1) as P3 by reflexivity.
    nia.
  - subst ey. rewrite Z.min_id, Z.sub_diag, Z.pow_0_r. lia.
Qed.

Lemma aligned_ge (mx my : positive) (ex ey : Z) :
  bounded prec emax mx ex = true → bounded prec emax my ey = true →
  ey < ex ∨ (ex = ey ∧ Zpos my <= Zpos mx) →
  Zpos (fst (shl_align my ey (Z.min ex ey)))
  <= Zpos (fst (shl_align mx ex (Z.min ex ey))).
Proof.
  intros Bx By Hc. rewrite Z.min_comm.
  apply aligned_le; [exact By | exact Bx | intuition lia].
Qed.

(** The comparison of two positive finite numbers, read on the integers. *)
Lemma compare_finite (mx my : positive) (ex ey : Z) :
  match
    match Z.compare ex ey with
    | Lt => Lt
    | Gt => Gt
    | Eq => Pos.compare_cont Eq mx my
    end
  with
  | Lt => ex < ey ∨ (ex = ey ∧ Zpos mx < Zpos my)
  | Eq => ex = ey ∧ mx = my
  | Gt => ey < ex ∨ (ex = ey ∧ Zpos my < Zpos mx)
  end.
Proof.
  change (Pos.compare_cont Eq mx my) with (Pos.compare mx my).
  destruct (Z.compare_spec ex ey); [|lia..].
  destruct (Pos.compare_spec mx my); [auto|right; lia..].
Qed.

(** Two negative numbers compare as their opposites do, the other way
    round. *)
Lemma compare_negative (mx my : positive) (ex ey : Z) :
  match Z.compare ex ey with
  | Lt => Gt
  | Gt => Lt
  | Eq => CompOpp (Pos.compare_cont Eq mx my)
  end
  = CompOpp match Z.compare ex ey with
            | Lt => Lt
            | Gt => Gt
            | Eq => Pos.compare_cont Eq mx my
            end.
Proof. destruct (Z.compare ex ey); reflexivity. Qed.

Definition SF_not_positive (r : spec_float) : Prop :=
  SFltb (S754_zero false) r = false.

Definition SF_not_negative (r : spec_float) : Prop :=
  SFltb r (S754_zero false) = false.

(** Rounding keeps the sign. *)
Lemma round_sign (s : bool) mx ex lx :
  if s then SF_not_positive (binary_round_aux prec emax s mx ex lx)
  else SF_not_negative (binary_round_aux prec emax s mx ex lx).
Proof.
  unfold SF_not_positive, SF_not_negative, binary_round_aux.
  destruct (shr_fexp _ _ _ _ _) as [mrs' e'].
  destruct (shr_fexp _ _ _ _ _) as [mrs'' e''].
  destruct s, (shr_m mrs''); try reflexivity;
    destruct (Z.leb _ _); reflexivity.
Qed.

Lemma normalize_not_positive (m e : Z) :
  m <= 0 → SF_not_positive (binary_normalize prec emax m e false).
Proof.
  intros L. destruct m as [|m|m]; [reflexivity|lia|].
  unfold binary_normalize, binary_round.
  destruct (shl_align _ _ _). apply (round_sign true).
Qed.

Lemma normalize_not_negative (m e : Z) :
  0 <= m → SF_not_negative (binary_normalize prec emax m e false).
Proof.
  intros L. destruct m as [|m|m]; [reflexivity| |lia].
  unfold binary_normalize, binary_round.
  destruct (shl_align _ _ _). apply (round_sign false).
Qed.

Ltac sf_cases L :=
  try discriminate L; try reflexivity;
  repeat match goal with
         | s : bool |- _ => destruct s; try discriminate L; try reflexivity
         end.

(** [x <= y] implies [not (x - y > 0)], on the specification. *)
Lemma SF_sub_not_positive (x y : spec_float) :
  valid_binary x = true → valid_binary y = true →
  SFleb x y = true → SF_not_positive (SF64sub x y).
Proof.
  intros Vx Vy L. unfold SF_not_positive.
  destruct x as [sx|sx| |sx mx ex], y as [sy|sy| |sy my ey];
    [sf_cases L..|].
  unfold SF64sub, SFsub. apply normalize_not_positive.
  simpl in Vx, Vy. unfold SFleb, SFcompare in L.
  pose proof (compare_finite mx my ex ey) as C.
  destruct sx, sy; cbn [cond_Zopp]; try discriminate L; [| lia |].
  - enough (Zpos (fst (shl_align my ey (Z.min ex ey)))
            <= Zpos (fst (shl_align mx ex (Z.min ex ey)))) by lia.
    apply aligned_ge; [exact Vx | exact Vy |].
    rewrite compare_negative in L.
    destruct (match Z.compare ex ey with Lt => Lt | Gt => Gt | Eq => _ end);
      cbn [CompOpp] in L; try discriminate L.
    + destruct C as [-> ->]. right. split; [reflexivity | lia].
    + intuition lia.
  - enough (Zpos (fst (shl_align mx ex (Z.min ex ey)))
            <= Zpos (fst (shl_align my ey (Z.min ex ey)))) by lia.
    apply aligned_le; [exact Vx | exact Vy |].
    destruct (match Z.compare ex ey with Lt => Lt | Gt => Gt | Eq => _ end);
      try discriminate L.
    + destruct C as [-> ->]. right. split; [reflexivity | lia].
    + intuition lia.
Qed.

(** [not (x < y)] implies [not (x - y < 0)], on the specification. *)
Lemma SF_sub_not_negative (x y : spec_float) :
  valid_binary x = true → valid_binary y = true →
  SFltb x y = false → SF_not_negative (SF64sub x y).
Proof.
  intros Vx Vy L. unfold SF_not_negative.
  destruct x as [sx|sx| |sx mx ex], y as [sy|sy| |sy my ey];
    [sf_cases L..|].
  unfold SF64sub, SFsub. apply normalize_not_negative.
  simpl in Vx, Vy. unfold SFltb, SFcompare in L.
  pose proof (compare_finite mx my ex ey) as C.
  destruct sx, sy; cbn [cond_Zopp]; try discriminate L; [| lia |].
  - enough (Zpos (fst (shl_align mx ex (Z.min ex ey)))
            <= Zpos (fst (shl_align my ey (Z.min ex ey)))) by lia.
    apply aligned_le; [exact Vx | exact Vy |].
    rewrite compare_negative in L.
    destruct (match Z.compare ex ey with Lt => Lt | Gt => Gt | Eq => _ end);
      cbn [CompOpp] in L; try discriminate L.
    + destruct C as [-> ->]. right. split; [reflexivity | lia].
    + intuition lia.
  - enough (Zpos (fst (shl_align my ey (Z.min ex ey)))
            <= Zpos (fst (shl_align mx ex (Z.min ex ey)))) by lia.
    apply aligned_ge; [exact Vx | exact Vy |].
    destruct (match Z.compare ex ey with Lt => Lt | Gt => Gt | Eq => _ end);
      try discriminate L.
    + destruct C as [-> ->]. right. split; [reflexivity | lia].
    + intuition lia.
Qed.

(** The sum of two numbers that are not negative is not negative. *)
Lemma SF_add_not_negative (x y : spec_float) :
  SF_not_negative x → SF_not_negative y → SF_not_negative (SF64add x y).
Proof.
  unfold SF_not_negative. intros Hx Hy.
  destruct x as [sx|sx| |sx mx ex], y as [sy|sy| |sy my ey];
    try reflexivity;
    try (destruct sx; try discriminate Hx; destruct sy; try discriminate Hy;
         reflexivity).
  destruct sx; [discriminate Hx|]. destruct sy; [discriminate Hy|].
  unfold SF64add, SFadd. apply normalize_not_negative.
  cbn [cond_Zopp]. lia.
Qed.

(** [x <= y] implies [not (x - y > 0)]: a subtraction rounds to the sign of
    the exact difference. *)
Lemma float_sub_not_positive (x y : float) :
  PrimFloat.leb x y = true → (x - y >? of_Z 0)%num = false.
Proof.
  cbn [nsub nltb of_Z float_num].
  rewrite leb_spec, ltb_spec, sub_spec.
  change (Prim2SF (F64.of_Z 0)) with (S754_zero false).
  apply SF_sub_not_positive; apply Prim2SF_valid.
Qed.

#[export] Instance float_sign_laws : SignLaws float.
Proof.
  split.
  - intros c t G. unfold not_negative. apply negb_true_iff.
    cbn [nsub nltb of_Z float_num] in *.
    rewrite ltb_spec in G. rewrite ltb_spec, sub_spec.
    change (Prim2SF (F64.of_Z 0)) with (S754_zero false).
    apply SF_sub_not_negative; [apply Prim2SF_valid.. | exact G].
  - intros c n Hc Hn. unfold not_negative in *.
    apply negb_true_iff in Hc, Hn. apply negb_true_iff.
    cbn [nadd nltb of_Z float_num] in *.
    rewrite ltb_spec in Hc, Hn. rewrite ltb_spec, add_spec.
    change (Prim2SF (F64.of_Z 0)) with (S754_zero false) in *.
    now apply SF_add_not_negative.
Qed.

Lemma SF_sub_diag (s : bool) (m : positive) (e : Z) :
  SF64sub (S754_finite s m e) (S754_finite s m e) = S754_zero false.
Proof. unfold SF64sub, SFsub. rewrite Z.sub_diag. reflexivity. Qed.

(** With a zero fee rate and a finite cost [c]: the fee is a zero, the total
    is [c], and the profit [(c - fee) - c] is [+0]. *)
Lemma SF_zero_fee (c : spec_float) :
  match c with S754_zero _ | S754_finite _ _ _ => True | _ => False end →
  let fee := SF64mul c (S754_zero false) in
  SF64add c fee = c
  ∧ SF64sub (SF64sub c fee) c = S754_zero false.
Proof.
  destruct c as [s|s| |s m e]; try contradiction; intros _; cbv zeta.
  - destruct s; split; reflexivity.
  - split; [reflexivity|].
    change (SF64sub (S754_finite s m e)
              (SF64mul (S754_finite s m e) (S754_zero false)))
      with (S754_finite s m e).
    apply SF_sub_diag.
Qed.

Lemma float_zero_fee (c : float) :
  F64.is_finite c = true →
  (c + c * of_Z 0)%num = c
  ∧ (c - c * of_Z 0 - c)%num = of_Z 0.
Proof.
  unfold F64.is_finite. intros F. cbn [nadd nsub nmul of_Z float_num].
  destruct (SF_zero_fee (Prim2SF c)) as [A B].
  { destruct (Prim2SF c); try discriminate; exact I. }
  split; apply Prim2SF_inj.
  - rewrite add_spec, mul_spec. exact A.
  - rewrite !sub_spec, mul_spec. exact B.
Qed.

End Binary64Facts.

Section Binary64Ledger.

Context {Text : Type}.
Variable json_dump : @PortfolioState float -> Text.
Variable now : nat -> string.

(** In binary64, a purchase and the sale that follows it, at the same price
    and without fee: when the cost is finite the recorded profit is [+0];
    the cash is what the two roundings make of it. *)
Lemma buy_sell_same_price_binary64 self a price q (w : @World Text) :
  F64.is_finite (q * price)%num = true →
  let rb := execute_buy json_dump now self a price q (of_Z 0) w in
  rb.1.1 = true →
  let rs := execute_sell json_dump now rb.1.2 a price (of_Z 0) rb.2 in
  rs.1.1 = true
  ∧ (∃ trade, history (state rs.1.2) = history (state self) ++ [trade]
              ∧ pnl_net trade = of_Z 0)
  ∧ cash (state rs.1.2)
    = (cash (state self) - q * price + (q * price - q * price * of_Z 0))%num.
Proof.
  intros Hfin. destruct (float_zero_fee _ Hfin) as [Htotal Hpnl].
  cbv zeta. rewrite execute_buy_eq.
  destruct (nltb _ _); [discriminate|]. intros _.
  cbv zeta. cbn [fst snd]. rewrite execute_sell_eq.
  match goal with |- context [get_position ?pm a] =>
    assert (get_position pm a =
            Some {| qty := q; entry_price := price;
                    entry_date := now (ticks w) |}) as ->
      by (unfold get_position; simpl; apply lookup_insert_eq)
  end.
  cbv zeta. cbn [fst snd state].
  split; [reflexivity|]. split.
  - eexists. split; [reflexivity|].
    unfold closed_trade, net_value; simpl. exact Hpnl.
  - unfold sold, bought, saved_state, set_last_updated, net_value.
    cbn [cash qty entry_price]. now rewrite Htotal.
Qed.

End Binary64Ledger.

(** ** The position cap and the sizing *)

Lemma LiveDecisionEngine_init_cap {N : Type} `{Num N} {Text : Type}
    (json_dump : @PortfolioState N -> Text)
    (json_load : Text -> Parsed (@PortfolioState N)) (now : nat -> string)
    (fs : Paths) (w : @World Text) e w' :
  LiveDecisionEngine_init json_dump json_load now fs w = (Returned e, w') →
  risk_per_trade e = dec 2 2 ∧ max_global_risk e = dec 6 2
  ∧ trunc (max_global_risk e / risk_per_trade e)%num = Some (max_positions e).
Proof.
  unfold LiveDecisionEngine_init.
  destruct (trunc _) as [cap|] eqn:Ecap; [|discriminate].
  destruct (PortfolioManager_init _ _ _ _ _ _ _) as [[pm|c|x|] w1];
    [|discriminate..].
  intros [= <- <-]. simpl. auto.
Qed.

(** The constructor of the engine returns whenever that of the ledger does,
    with the ledger it got and the files as the ledger's constructor left
    them. *)
Lemma LiveDecisionEngine_init_returns {N : Type} `{Num N} {Text : Type}
    (json_dump : @PortfolioState N -> Text)
    (json_load : Text -> Parsed (@PortfolioState N)) (now : nat -> string)
    (fs : Paths) (w : @World Text) cap p w' :
  trunc (dec 6 2 / dec 2 2 : N)%num = Some cap →
  PortfolioManager_init json_dump json_load now fs
    "live_paper_trading.json" (of_Z 10000) w = (Returned p, w') →
  LiveDecisionEngine_init json_dump json_load now fs w
  = (Returned {| assets := ["BTC-USD"; "ETH-USD"; "SPY"; "GC=F"]%string;
                 risk_per_trade := dec 2 2; max_global_risk := dec 6 2;
                 max_positions := cap; portfolio := p |}, w').
Proof.
  intros Hcap Hinit. unfold LiveDecisionEngine_init.
  cbv zeta. now rewrite Hcap, Hinit.
Qed.

Lemma configured_cap_float : trunc (dec 6 2 / dec 2 2 : float)%num = Some 3%Z.
Proof. vm_compute. reflexivity. Qed.

Lemma configured_cap_exact : trunc (dec 6 2 / dec 2 2 : Qc)%num = Some 3%Z.
Proof. vm_compute. reflexivity. Qed.

(** C4.  The constructor sets [max_positions] to
    [int(max_global_risk / risk_per_trade)], with [max_global_risk = 0.06]
    and [risk_per_trade = 0.02]; that is 3, in binary64 as in exact
    arithmetic, and the constructor returns an engine with that cap
    whenever the constructor of the ledger returns, around the ledger it
    got.  When the number of open positions has reached [max_positions],
    the entry loop executes nothing, whatever the market data: the manager,
    the files and the list of ledger calls are as before. *)
Theorem position_cap :
  (∀ (N : Type) (HN : Num N) (Text : Type)
     (json_dump : @PortfolioState N -> Text)
     (json_load : Text -> Parsed (@PortfolioState N)) (now : nat -> string)
     (fs : Paths) (w : @World Text) e w',
     LiveDecisionEngine_init json_dump json_load now fs w = (Returned e, w') →
     risk_per_trade e = dec 2 2 ∧ max_global_risk e = dec 6 2
     ∧ trunc (max_global_risk e / risk_per_trade e)%num
       = Some (max_positions e))
  ∧ trunc (dec 6 2 / dec 2 2 : float)%num = Some 3%Z
  ∧ trunc (dec 6 2 / dec 2 2 : Qc)%num = Some 3%Z
  ∧ (∀ (Text : Type) (json_dump : @PortfolioState float -> Text)
       (json_load : Text -> Parsed (@PortfolioState float))
       (now : nat -> string) (fs : Paths) (w : @World Text) p w',
       PortfolioManager_init json_dump json_load now fs
         "live_paper_trading.json" (of_Z 10000) w = (Returned p, w') →
       LiveDecisionEngine_init json_dump json_load now fs w
       = (Returned {| assets := ["BTC-USD"; "ETH-USD"; "SPY"; "GC=F"]%string;
                      risk_per_trade := dec 2 2; max_global_risk := dec 6 2;
                      max_positions := 3; portfolio := p |}, w'))
  ∧ (∀ (Text : Type) (json_dump : @PortfolioState Qc -> Text)
       (json_load : Text -> Parsed (@PortfolioState Qc))
       (now : nat -> string) (fs : Paths) (w : @World Text) p w',
       PortfolioManager_init json_dump json_load now fs
         "live_paper_trading.json" (of_Z 10000) w = (Returned p, w') →
       LiveDecisionEngine_init json_dump json_load now fs w
       = (Returned {| assets := ["BTC-USD"; "ETH-USD"; "SPY"; "GC=F"]%string;
                      risk_per_trade := dec 2 2; max_global_risk := dec 6 2;
                      max_positions := 3; portfolio := p |}, w'))
  ∧ (∀ (N : Type) (HN : Num N) (Text : Type)
       (json_dump : @PortfolioState N -> Text) (now : nat -> string)
       (self : @LiveDecisionEngine N) (w : @World Text) calls market_data,
       (max_positions self
          <= Z.of_nat (get_active_positions_count (portfolio self)))%Z →
       entry_pass json_dump now (self, w, calls) market_data
       = (self, w, calls)).
Proof.
  split; [|split; [|split; [|split; [|split]]]].
  - intros. eapply LiveDecisionEngine_init_cap; eassumption.
  - exact configured_cap_float.
  - exact configured_cap_exact.
  - intros. now apply LiveDecisionEngine_init_returns.
  - intros. now apply LiveDecisionEngine_init_returns.
  - intros. now apply entry_pass_capped.
Qed.

Lemma py_min_le_r (a b : Qc) : (py_min a b <= b)%Qc.
Proof.
  unfold py_min. simpl. destruct (Exact.ltb b a) eqn:E.
  - apply Qcle_refl.
  - now apply exact_ltb_ge in E.
Qed.

Lemma py_min_le_l (a b : Qc) : (py_min a b <= a)%Qc.
Proof.
  unfold py_min. simpl. destruct (Exact.ltb b a) eqn:E.
  - apply exact_ltb_lt in E. now apply Qclt_le_weak.
  - apply Qcle_refl.
Qed.

Lemma py_min_choice {N : Type} `{Num N} (a b : N) :
  py_min a b = a ∨ py_min a b = b.
Proof. unfold py_min. destruct (_ <? _)%num; auto. Qed.

Lemma size_position_affordable (capital fraction entry stop q : Qc) :
  (0 < entry)%Qc →
  size_position capital fraction entry stop = Some q →
  (q * entry <= capital)%Qc.
Proof.
  intros Hpos. rewrite size_position_eq.
  destruct (risk_positive entry stop); [|discriminate].
  intros [= <-].
  assert (entry ≠ 0%Qc) as Hne
    by (intros ->; now apply Qclt_not_le in Hpos; apply Hpos, Qcle_refl).
  assert ((capital / entry * entry)%Qc = capital) as E by now field.
  apply Qcle_trans with (capital / entry * entry)%Qc.
  - apply Qcmult_le_compat_r; [apply py_min_le_r | now apply Qclt_le_weak].
  - rewrite E. apply Qcle_refl.
Qed.

Lemma size_position_example_float :
  size_position (of_Z 10000 : float) (dec 2 2) (of_Z 100) (of_Z 90)
  = Some (of_Z 20).
Proof. vm_compute. reflexivity. Qed.

Lemma size_position_example_exact :
  size_position (of_Z 10000 : Qc) (dec 2 2) (of_Z 100) (of_Z 90)
  = Some (of_Z 20).
Proof. rewrite size_position_eq. vm_compute. f_equal. now apply Qc_is_canon. Qed.

(** C5, as it holds.  When the entry price is above the stop, the sizing
    returns [min(capital * fraction / (entry - stop), capital / entry)]; for
    a capital of 10000, a fraction of 0.02, an entry of 100 and a stop of 90
    that is exactly 20, in binary64 as in exact arithmetic.  In exact
    arithmetic [min] is the least of the two and, for a positive entry
    price, the quantity times the entry price is at most the capital. *)
Theorem size_position_spec :
  (∀ (N : Type) (HN : Num N) (capital fraction entry stop : N),
     size_position capital fraction entry stop =
     if (entry - stop >? of_Z 0)%num
     then Some (py_min (capital * fraction / (entry - stop))%num
                       (capital / entry)%num)
     else None)
  ∧ size_position (of_Z 10000 : float) (dec 2 2) (of_Z 100) (of_Z 90)
    = Some (of_Z 20)
  ∧ size_position (of_Z 10000 : Qc) (dec 2 2) (of_Z 100) (of_Z 90)
    = Some (of_Z 20)
  ∧ (∀ a b : Qc,
       (py_min a b <= a)%Qc ∧ (py_min a b <= b)%Qc
       ∧ (py_min a b = a ∨ py_min a b = b))
  ∧ (∀ capital fraction entry stop q : Qc,
       (0 < entry)%Qc →
       size_position capital fraction entry stop = Some q →
       (q * entry <= capital)%Qc).
Proof.
  split; [|split; [|split; [|split]]].
  - reflexivity.
  - exact size_position_example_float.
  - exact size_position_example_exact.
  - intros a b. split; [apply py_min_le_l|].
    split; [apply py_min_le_r | apply py_min_choice].
  - exact size_position_affordable.
Qed.

Lemma exact_risk_refused (entry stop : Qc) :
  (entry <= stop)%Qc → risk_positive entry stop = false.
Proof.
  intros L. unfold risk_positive. simpl. apply exact_ltb_ge.
  change (Exact.of_Z 0) with 0%Qc.
  apply Qcle_minus_iff in L. apply Qcopp_le_compat in L.
  replace (- (stop + - entry))%Qc with (entry - stop)%Qc in L by ring.
  exact L.
Qed.

(** C6.  When the risk per unit [entry - stop] is not positive, the sizing
    yields nothing ([None], before any division), the iteration of the entry
    loop leaves the manager, the files and the list of ledger calls as they
    were, and the whole cycle makes no [execute_buy] call for the asset.  The
    risk per unit is not positive whenever the stop is at or above the entry
    price, in exact arithmetic and in binary64. *)
Theorem degenerate_risk_refused :
  (∀ (N : Type) (HN : Num N) (Text : Type)
     (json_dump : @PortfolioState N -> Text) (now : nat -> string)
     (self : @LiveDecisionEngine N) (w : @World Text) calls a data,
     (Close data - Min_20 data >? of_Z 0)%num = false →
     size_position (get_cash (portfolio self)) (risk_per_trade self)
       (Close data) (Min_20 data) = None
     ∧ entry_step json_dump now (self, w, calls) (a, data)
       = (self, w, calls))
  ∧ (∀ (N : Type) (HN : Num N) (Text : Type)
       (json_dump : @PortfolioState N -> Text) (now : nat -> string)
       (self : @LiveDecisionEngine N) market_data (w : @World Text) a,
       (∀ data, (a, data) ∈ market_data →
                (Close data - Min_20 data >? of_Z 0)%num = false) →
       ∀ c, c ∈ (run_daily_execution json_dump now self market_data w).2 →
            ¬ buys a c)
  ∧ (∀ entry stop : Qc,
       (entry <= stop)%Qc → (entry - stop >? of_Z 0)%num = false)
  ∧ (∀ entry stop : float,
       PrimFloat.leb entry stop = true →
       (entry - stop >? of_Z 0)%num = false).
Proof.
  split; [|split; [|split]].
  - intros N HN Text json_dump now self w calls a data Hrisk. split.
    + rewrite size_position_eq. unfold risk_positive. now rewrite Hrisk.
    + now apply entry_step_refused.
  - intros N HN Text json_dump now self market_data w a Hrisk.
    now apply run_daily_no_buy.
  - exact exact_risk_refused.
  - exact float_sub_not_positive.
Qed.

(** A binary64 number that is not below zero is at least zero, or it is a
    NaN. *)
Lemma float_not_negative_cases (x : float) :
  not_negative x = true →
  PrimFloat.leb 0 x = true ∨ float_is_nan x = true.
Proof.
  unfold not_negative, float_is_nan. cbn [nltb float_num].
  rewrite ltb_spec, leb_spec.
  replace (Prim2SF (of_Z 0)) with (S754_zero false)
    by (vm_compute; reflexivity).
  replace (Prim2SF 0) with (S754_zero false) by (vm_compute; reflexivity).
  destruct (Prim2SF x) as [sx | [] | | [] m e]; cbn; intros Hx;
    first [discriminate | now left | now right].
Qed.

(** C1, as it holds.  In exact arithmetic: from a state whose cash is at
    least zero and in which no negative quantity is held, after every call
    of a sequence of [execute_buy] calls with non-negative quantities and
    [execute_sell] calls at non-negative prices with fee rates of at most
    one, the cash is at least zero.  In binary64: from a state whose cash is
    not below zero, when the net value [qty * price - fee] of every sale
    that is executed is not below zero, after every call the cash is at
    least zero or it is a NaN. *)
Theorem cash_never_negative :
  (∀ (Text : Type) (json_dump : @PortfolioState Qc -> Text)
     (now : nat -> string) ops self (w : @World Text),
     solvent self → Forall sound_op ops →
     Forall (λ st', (0 <= cash (state st'.1))%Qc)
            (run_ops json_dump now ops (self, w)))
  ∧ (∀ (Text : Type) (json_dump : @PortfolioState float -> Text)
       (now : nat -> string) ops self (w : @World Text),
       not_negative (cash (state self)) = true →
       sales_not_negative json_dump now ops (self, w) = true →
       Forall (λ st', PrimFloat.leb 0 (cash (state st'.1)) = true
                      ∨ float_is_nan (cash (state st'.1)) = true)
              (run_ops json_dump now ops (self, w))).
Proof.
  split.
  - intros Text json_dump now ops self w Hself Hops.
    eapply Forall_impl; [apply run_ops_solvent; [exact Hself | exact Hops]|].
    intros st' [Hcash _]. exact Hcash.
  - intros Text json_dump now ops self w Hcash Hsales.
    eapply Forall_impl;
      [apply (run_ops_not_negative json_dump now ops (self, w) Hcash Hsales)|].
    intros st'. apply float_not_negative_cases.
Qed.

(** C3, as it holds.  [execute_sell] returns [False] exactly when the asset
    has no position.  Otherwise it returns [True]; with
    [gross = qty * price], [fee = gross * fee_rate] and [net = gross - fee],
    computed in these three steps, the cash is the old cash plus [net], the
    history is the old one followed by one closed trade whose profit is
    [net - qty * entry_price], and the asset has no position any more.  In
    exact arithmetic the cash credited is [qty * price * (1 - fee_rate)] and
    the profit recorded is that less [qty * entry_price]. *)
Theorem execute_sell_spec :
  (∀ (N : Type) (HN : Num N) (Text : Type)
     (json_dump : @PortfolioState N -> Text) (now : nat -> string)
     self a price fee_rate (w : @World Text),
     let r := execute_sell json_dump now self a price fee_rate w in
     (r.1.1 = false ↔ get_position self a = None)
     ∧ match get_position self a with
       | None => r = (false, self, w)
       | Some pos =>
           let net := (qty pos * price - qty pos * price * fee_rate)%num in
           r.1.1 = true
           ∧ cash (state r.1.2) = (cash (state self) + net)%num
           ∧ history (state r.1.2) =
               history (state self) ++
               [ {| asset := a; trade_entry_price := entry_price pos;
                    exit_price := price;
                    pnl_net := (net - qty pos * entry_price pos)%num;
                    exit_date := now (ticks w) |} ]
           ∧ get_position r.1.2 a = None
       end)
  ∧ (∀ (Text : Type) (json_dump : @PortfolioState Qc -> Text)
       (now : nat -> string) self a pos price fee_rate (w : @World Text),
       get_position self a = Some pos →
       let r := execute_sell json_dump now self a price fee_rate w in
       let net := (qty pos * price * (1 - fee_rate))%Qc in
       r.1.1 = true
       ∧ cash (state r.1.2) = (cash (state self) + net)%Qc
       ∧ (pnl_net <$> history (state r.1.2))
         = (pnl_net <$> history (state self))
           ++ [(net - qty pos * entry_price pos)%Qc]).
Proof.
  split.
  - intros N HN Text json_dump now self a price fee_rate w.
    exact (execute_sell_steps json_dump now self a price fee_rate w).
  - intros Text json_dump now self a pos price fee_rate w Hpos.
    pose proof (execute_sell_steps json_dump now self a price fee_rate w)
      as Hsteps.
    cbv zeta in *. rewrite Hpos in Hsteps.
    destruct Hsteps as (_ & Hok & Hcash & Hhist & _).
    split; [exact Hok|]. split.
    + rewrite Hcash. cbn [nadd nsub nmul Qc_num]. ring.
    + rewrite Hhist, fmap_app. cbn [fmap list_fmap pnl_net]. do 2 f_equal.
      cbn [nadd nsub nmul Qc_num]. ring.
Qed.

(** C7, as it holds.  When [execute_buy] with a zero fee rate succeeds,
    [execute_sell] of the same asset at the same price with a zero fee rate,
    called next, succeeds and appends a closed trade whose profit is zero:
    in exact arithmetic, and in binary64 when [qty * price] is finite.  In
    exact arithmetic the cash is back at its value before the purchase; in
    binary64 it is [(cash - cost) + cost] as the two operations round it. *)
Theorem buy_sell_same_price :
  (∀ (Text : Type) (json_dump : @PortfolioState Qc -> Text)
     (now : nat -> string) self a price q (w : @World Text),
     let rb := execute_buy json_dump now self a price q (of_Z 0) w in
     rb.1.1 = true →
     let rs := execute_sell json_dump now rb.1.2 a price (of_Z 0) rb.2 in
     rs.1.1 = true
     ∧ (∃ trade, history (state rs.1.2) = history (state self) ++ [trade]
                 ∧ pnl_net trade = of_Z 0)
     ∧ cash (state rs.1.2) = cash (state self))
  ∧ (∀ (Text : Type) (json_dump : @PortfolioState float -> Text)
       (now : nat -> string) self a price q (w : @World Text),
       F64.is_finite (q * price)%num = true →
       let rb := execute_buy json_dump now self a price q (of_Z 0) w in
       rb.1.1 = true →
       let rs := execute_sell json_dump now rb.1.2 a price (of_Z 0) rb.2 in
       rs.1.1 = true
       ∧ (∃ trade, history (state rs.1.2) = history (state self) ++ [trade]
                   ∧ pnl_net trade = of_Z 0)
       ∧ cash (state rs.1.2)
         = (cash (state self) - q * price
            + (q * price - q * price * of_Z 0))%num).
Proof.
  split.
  - intros. now apply buy_sell_same_price_exact.
  - intros. now apply buy_sell_same_price_binary64.
Qed.

(** ** Concrete runs *)

(** The scenario of the specification, in binary64: buy 10 at 100, sell at
    120, fee rate 0.001. *)
Example scenario_float :
  cash_after
    (run_ops run_dump stamp
       [OpBuy "X" (of_Z 100) (of_Z 10) (dec 1 3);
        OpSell "X" (of_Z 120) (dec 1 3)]
       (fresh (of_Z 10000 : float), empty_world))
  = [of_Z 8999; dec 101978 1].
Proof. vm_compute. reflexivity. Qed.

(** In binary64 the two ways of writing the net value of a sale differ in the
    last place: for one unit sold at 0.75 with the default fee rate, the
    three steps of the code give 0.748875, and [qty * price * (1 - fee_rate)]
    gives the next number up. *)
Example net_value_steps_float :
  let q : float := of_Z 1 in
  let p : float := dec 75 2 in
  (q * p - q * p * default_fee_rate)%num = dec 748875 6
  ∧ (q * p * (of_Z 1 - default_fee_rate))%num
    = PrimFloat.next_up (dec 748875 6).
Proof. cbv zeta. split; vm_compute; reflexivity. Qed.

(** C1 as stated fails, in two ways.  A sale at a negative price (a futures
    contract can close below zero) takes the cash below zero:
    [negative_price_run] starts with a cash of 10000 and ends with -4992.5,
    in binary64 as in exact arithmetic.  And in binary64 the cash can end as
    a NaN, which is not at least zero, with positive quantities, prices and
    fee rates only: in [overflow_run] the gross of the sale is [2^1200],
    which is infinite, so is the fee, and their difference is a NaN. *)
Lemma cash_negative_after_sale :
  (@negative_price_run float _ <? of_Z 0)%num = true
  ∧ @negative_price_run float _ = (-4992.5)%float
  ∧ (@negative_price_run Qc _ <? of_Z 0)%num = true
  ∧ sales_not_negative run_dump stamp overflow_ops
      (fresh (of_Z 10000), empty_world) = true
  ∧ float_is_nan overflow_run = true
  ∧ PrimFloat.leb 0 overflow_run = false.
Proof. repeat split; vm_compute; reflexivity. Qed.

Lemma cash_never_negative_witness :
  Forall (λ st', PrimFloat.leb 0 (cash (state st'.1)) = true
                 ∨ float_is_nan (cash (state st'.1)) = true)
    (run_ops run_dump stamp
       [OpBuy "X" (of_Z 100) (of_Z 10) (dec 1 3);
        OpSell "X" (of_Z 120) (dec 1 3)]
       (fresh (of_Z 10000 : float), empty_world)).
Proof.
  refine (proj2 cash_never_negative _ run_dump stamp _
            (fresh (of_Z 10000)) empty_world _ _).
  - vm_compute. reflexivity.
  - vm_compute. reflexivity.
Defined.

(** C3 as stated fails in binary64: for one unit sold at 0.75 with the
    default fee rate, from a cash of zero, the cash after the sale is
    0.748875, the net of the three steps, and
    [qty * price * (1 - fee_rate)] is the next number up; the profits
    differ in the same way. *)
Lemma execute_sell_net_float :
  let r := execute_sell run_dump stamp one_unit.1 "X" (dec 75 2)
             default_fee_rate one_unit.2 in
  let net : float := (of_Z 1 * dec 75 2 * (of_Z 1 - default_fee_rate))%num in
  get_position one_unit.1 "X"
  = Some {| qty := of_Z 1; entry_price := dec 5 1; entry_date := stamp 0 |}
  ∧ cash (state one_unit.1) = of_Z 0
  ∧ r.1.1 = true
  ∧ cash (state r.1.2) = dec 748875 6
  ∧ (cash (state one_unit.1) + net)%num = PrimFloat.next_up (dec 748875 6)
  ∧ (cash (state r.1.2) <? cash (state one_unit.1) + net)%num = true
  ∧ (pnl_net <$> history (state r.1.2))
    = [(dec 748875 6 - of_Z 1 * dec 5 1)%num]
  ∧ (dec 748875 6 - of_Z 1 * dec 5 1 <? net - of_Z 1 * dec 5 1)%num = true.
Proof. cbv zeta. repeat split; vm_compute; reflexivity. Qed.

Lemma execute_sell_spec_witness :
  let r := execute_sell run_dump stamp
             (apply_op run_dump stamp (fresh (of_Z 10000 : Qc), empty_world)
                (OpBuy "X" (of_Z 100) (of_Z 10) (dec 1 3))).1
             "X" (of_Z 120) (dec 1 3)
             (apply_op run_dump stamp (fresh (of_Z 10000 : Qc), empty_world)
                (OpBuy "X" (of_Z 100) (of_Z 10) (dec 1 3))).2 in
  cash (state r.1.2)
  = (cash (state (apply_op run_dump stamp
                    (fresh (of_Z 10000 : Qc), empty_world)
                    (OpBuy "X" (of_Z 100) (of_Z 10) (dec 1 3))).1)
     + of_Z 10 * of_Z 120 * (1 - dec 1 3))%Qc.
Proof.
  cbv zeta.
  refine (proj1 (proj2 (proj2 execute_sell_spec _ run_dump stamp _ "X"
                          {| qty := of_Z 10; entry_price := of_Z 100;
                             entry_date := stamp 0 |}
                          (of_Z 120) (dec 1 3) _ _))).
  vm_compute. reflexivity.
Defined.

(** C7 as stated fails in binary64: with a cash of 7188.64, buying 7.05 units
    at 80.12 and selling them at 80.12, both without fee, succeeds twice and
    records a profit of zero, but leaves a cash of 7188.639999999999: the
    subtraction and the addition of the cost are both rounded. *)
Lemma buy_sell_same_price_float :
  let cash0 : float := dec 718864 2 in
  let rb := execute_buy run_dump stamp (fresh cash0) "X" (dec 8012 2)
              (dec 705 2) (of_Z 0) empty_world in
  let rs := execute_sell run_dump stamp rb.1.2 "X" (dec 8012 2) (of_Z 0)
              rb.2 in
  rb.1.1 = true ∧ rs.1.1 = true
  ∧ (pnl_net <$> history (state rs.1.2)) = [of_Z 0]
  ∧ (cash (state rs.1.2) <? cash0)%num = true
  ∧ (cash0 - cash (state rs.1.2))%num = 0x1p-40%float.
Proof. cbv zeta. repeat split; vm_compute; reflexivity. Qed.

Lemma buy_sell_same_price_witness :
  let rb := execute_buy run_dump stamp (fresh (of_Z 10000 : Qc)) "X"
              (of_Z 100) (of_Z 10) (of_Z 0) empty_world in
  cash (state (execute_sell run_dump stamp rb.1.2 "X" (of_Z 100) (of_Z 0)
                 rb.2).1.2)
  = of_Z 10000.
Proof.
  cbv zeta.
  refine (proj2 (proj2 (proj1 buy_sell_same_price _ run_dump stamp
                          (fresh (of_Z 10000 : Qc)) "X" (of_Z 100) (of_Z 10)
                          empty_world _))).
  vm_compute. reflexivity.
Defined.

(** C5 as stated fails in binary64: with a capital of 10000, an entry price
    of 32.9 and a stop of 32.4, the sizing returns
    [10000 / 32.9 = 303.95136778115506], and that quantity times 32.9 is
    10000.000000000002, above the capital. *)
Lemma size_position_float_overshoot :
  let capital : float := of_Z 10000 in
  let entry : float := dec 329 1 in
  (of_Z 0 <? entry)%num = true
  ∧ ∃ q, size_position capital (dec 2 2) entry (dec 324 1) = Some q
         ∧ q = (capital / entry)%num
         ∧ (capital <? q * entry)%num = true.
Proof.
  cbv zeta. split; [vm_compute; reflexivity|].
  eexists. split; [vm_compute; reflexivity|].
  split; vm_compute; reflexivity.
Qed.

Lemma size_position_witness :
  (of_Z 20 * of_Z 100 <= of_Z 10000)%Qc.
Proof.
  refine (proj2 (proj2 (proj2 (proj2 size_position_spec)))
            (of_Z 10000) (dec 2 2) (of_Z 100) (of_Z 90) (of_Z 20) _ _).
  - vm_compute. reflexivity.
  - exact size_position_example_exact.
Defined.

Lemma position_cap_witness :
  LiveDecisionEngine_init run_dump run_load stamp plain_paths live_world
  = (Returned live_engine, live_world)
  ∧ max_positions live_engine = 3%Z
  ∧ get_active_positions_count (portfolio live_engine) = 3%nat
  ∧ entry_pass run_dump stamp (live_engine, live_world, []) strong_signal
    = (live_engine, live_world, []).
Proof.
  split; [|split; [reflexivity | split; [vm_compute; reflexivity|]]].
  - refine (proj1 (proj2 (proj2 (proj2 position_cap))) _ run_dump run_load
              stamp plain_paths live_world
              {| filename := "live_paper_trading.json";
                 initial_capital := of_Z 10000;
                 state := state three_positions.1 |} live_world _).
    vm_compute. reflexivity.
  - refine (proj2 (proj2 (proj2 (proj2 (proj2 position_cap)))) float _ _
              run_dump stamp live_engine live_world [] strong_signal _).
    vm_compute. discriminate.
Defined.

(** The same signal with one position less is executed: the cap is what
    stops it. *)
Example signal_below_cap :
  let e := {| assets := assets engine_at_cap;
              risk_per_trade := dec 2 2; max_global_risk := dec 6 2;
              max_positions := 3; portfolio := fresh (of_Z 10000) |} in
  (entry_pass run_dump stamp (e, empty_world, []) strong_signal).2
  = [Buy "GC=F" (of_Z 2000) (of_Z 1)].
Proof. vm_compute. reflexivity. Qed.

Lemma degenerate_risk_witness :
  entry_step run_dump stamp
    ({| assets := []; risk_per_trade := dec 2 2; max_global_risk := dec 6 2;
        max_positions := 3; portfolio := fresh (of_Z 10000 : float) |},
     empty_world, [])
    ("SPY"%string, flat_signal)
  = ({| assets := []; risk_per_trade := dec 2 2; max_global_risk := dec 6 2;
        max_positions := 3; portfolio := fresh (of_Z 10000 : float) |},
     empty_world, []).
Proof.
  refine (proj2 (proj1 degenerate_risk_refused float _ _ run_dump stamp
                   _ empty_world [] "SPY"%string flat_signal _)).
  vm_compute. reflexivity.
Defined.

Lemma save_load_roundtrip_witness :
  let r := _save run_dump stamp (fresh (of_Z 10000 : float))
             (state (fresh (of_Z 10000))) empty_world in
  _load_or_create run_dump run_load stamp plain_paths "portfolio_state.json"
    (of_Z 10000) r.2
  = (Returned (state r.1), r.2).
Proof.
  cbv zeta.
  refine (proj1 (save_load_roundtrip run_dump run_load stamp plain_paths _
                   (fresh (of_Z 10000 : float)) (state (fresh (of_Z 10000)))
                   empty_world (of_Z 10000))).
  intros s. reflexivity.
Defined.

Lemma other_asset_frame_witness :
  get_position
    (execute_sell run_dump stamp three_positions.1 "SPY" (of_Z 510)
       default_fee_rate three_positions.2).1.2 "BTC-USD"
  = get_position three_positions.1 "BTC-USD".
Proof.
  refine (proj1 (proj2 (proj2 (other_asset_frame run_dump stamp
                                 three_positions.1 "SPY" "BTC-USD" (of_Z 510)
                                 (of_Z 1) default_fee_rate three_positions.2
                                 _)))).
  discriminate.
Defined.

(** * Further properties of the code *)

(** ** The ledger *)

Section LedgerExtras.

Context {N : Type} `{Num N} {Text : Type}.
Variable json_dump : @PortfolioState N -> Text.
Variable json_load : Text -> Parsed (@PortfolioState N).
Variable now : nat -> string.
Variable fs : Paths.

Local Abbreviation buy := (execute_buy json_dump now).
Local Abbreviation sell := (execute_sell json_dump now).
Local Abbreviation step := (apply_op json_dump now).
Local Abbreviation count := get_active_positions_count.

(** What one call does to the manager and the files, in the two cases. *)
Lemma apply_op_cases (st : @PortfolioManager N * @World Text) op :
  step st op = st
  ∨ ∃ s1, step st op =
          ({| filename := filename st.1;
              initial_capital := initial_capital st.1;
              state := saved_state now s1
                         {| files := files st.2; ticks := S (ticks st.2) |} |},
           saved_world json_dump now (filename st.1) s1
             {| files := files st.2; ticks := S (ticks st.2) |})
          ∧ history (state st.1) `prefix_of` history s1.
Proof.
  destruct st as [self w].
  destruct op as [a price q fee_rate | a price fee_rate]; cbn [apply_op fst snd].
  - rewrite execute_buy_eq. destruct (nltb _ _); [now left|].
    right. eexists. split; [reflexivity|]. reflexivity.
  - rewrite execute_sell_eq. destruct (get_position self a); [|now left].
    right. eexists. split; [reflexivity|]. now apply prefix_app_r.
Qed.

(** A property that every call keeps holds after each call of a sequence. *)
Lemma run_ops_invariant (P : @PortfolioManager N * @World Text → Prop) :
  (∀ st op, P st → P (step st op)) →
  ∀ ops st, P st → Forall P (run_ops json_dump now ops st).
Proof.
  intros Hstep ops. induction ops as [|op rest IH]; intros st Hst.
  - constructor.
  - cbn [run_ops]. constructor; [now apply Hstep | apply IH; now apply Hstep].
Qed.

Lemma run_all_invariant (P : @PortfolioManager N * @World Text → Prop) :
  (∀ st op, P st → P (step st op)) →
  ∀ ops st, P st → P (run_all json_dump now ops st).
Proof.
  intros Hstep ops. unfold run_all.
  induction ops as [|op rest IH]; intros st Hst; cbn [fold_left];
    [exact Hst | apply IH; now apply Hstep].
Qed.

(** X1.  A purchase that succeeds adds one to the number of open positions
    when the asset was not held, and leaves the number as it is when the
    asset was held (the record is replaced); a purchase that is rejected
    leaves it as it is. *)
Theorem buy_position_count self a price q fee_rate w :
  let r := buy self a price q fee_rate w in
  count r.1.2 =
  if r.1.1 then
    match get_position self a with
    | Some _ => count self
    | None => S (count self)
    end
  else count self.
Proof.
  cbv zeta. rewrite execute_buy_eq.
  destruct (nltb _ _); [reflexivity|].
  unfold get_active_positions_count, get_position; simpl.
  rewrite map_size_insert. now destruct (positions (state self) !! a).
Qed.

(** X2.  A sale succeeds exactly when the asset is held, and then the number
    of open positions goes down by one; a sale that is rejected leaves it as
    it is. *)
Theorem sell_position_count self a price fee_rate w :
  let r := sell self a price fee_rate w in
  (r.1.1 = true ↔ is_Some (get_position self a))
  ∧ if r.1.1 then count self = S (count r.1.2)
    else count r.1.2 = count self.
Proof.
  cbv zeta. rewrite execute_sell_eq.
  destruct (get_position self a) as [pos|] eqn:E; cbn [fst snd].
  - split; [split; eauto|].
    unfold get_active_positions_count, get_position in *; simpl.
    rewrite map_size_delete, E. cbn.
    assert (size (positions (state self)) ≠ 0%nat) as Hne.
    { intros Hz. apply map_size_empty_iff in Hz. rewrite Hz in E.
      now rewrite lookup_empty in E. }
    destruct (size (positions (state self))); [contradiction | reflexivity].
  - split; [|reflexivity]. split; [discriminate | intros [? ?]; discriminate].
Qed.

(** X3.  The history only grows at its end: after each call of any sequence
    of purchases and sales, the history that was there at the start is still
    there, in place, as a prefix. *)
Theorem history_append_only ops (st : @PortfolioManager N * @World Text) :
  Forall (λ st', history (state st.1) `prefix_of` history (state st'.1))
         (run_ops json_dump now ops st).
Proof.
  apply (run_ops_invariant
           (λ st', history (state st.1) `prefix_of` history (state st'.1)));
    [|reflexivity].
  intros st1 op Hpre.
  destruct (apply_op_cases st1 op) as [-> | (s1 & -> & Hs1)]; [exact Hpre|].
  cbn [fst state saved_state set_last_updated history].
  now transitivity (history (state st1.1)).
Qed.

(** X4.  The calls write to two paths only, the file of the manager and its
    staging file: after each call of any sequence, every other path holds
    what it held, and the manager still has its file name. *)
Theorem other_files_untouched ops (st : @PortfolioManager N * @World Text)
    (path : string) :
  path ≠ filename st.1 → path ≠ (filename st.1 ++ ".tmp")%string →
  Forall (λ st', files st'.2 !! path = files st.2 !! path
                 ∧ filename st'.1 = filename st.1)
         (run_ops json_dump now ops st).
Proof.
  intros Hf Ht.
  apply (run_ops_invariant
           (λ st', files st'.2 !! path = files st.2 !! path
                   ∧ filename st'.1 = filename st.1)); [|now split].
  intros st1 op [Hfiles Hname].
  destruct (apply_op_cases st1 op) as [-> | (s1 & -> & _)]; [now split|].
  cbn [fst snd filename]. split; [|exact Hname].
  unfold saved_world; cbn [files]. rewrite Hname.
  rewrite lookup_insert_ne by congruence.
  rewrite lookup_delete_ne by congruence.
  rewrite lookup_insert_ne by congruence. exact Hfiles.
Qed.

(** How the constructor ends, by what it finds under the name. *)
Lemma load_or_create_cases fname capital (w : @World Text) :
  let init := PortfolioManager_init json_dump json_load now fs fname capital w in
  match files w !! fname with
  | Some text =>
      match json_load text with
      | LedgerState s =>
          init = (Returned {| filename := fname; initial_capital := capital;
                              state := s |}, w)
      | NotJson => init = (Exited 1, w)
      | NotText => init = (Raised "UnicodeDecodeError", w)
      | OtherJson => init = (Foreign, w)
      end
  | None =>
      match read_error fs fname with
      | Some exn => init = (Raised exn, w)
      | None =>
          match write_error fs (fname ++ ".tmp")%string with
          | Some exn => ∃ w', init = (Raised exn, w') ∧ files w' = files w
          | None =>
              match replace_error fs fname with
              | Some exn => ∃ w', init = (Raised exn, w')
              | None =>
                  ∃ s w', init = (Returned {| filename := fname;
                                              initial_capital := capital;
                                              state := s |}, w')
              end
          end
      end
  end.
Proof.
  cbv zeta. unfold PortfolioManager_init, _load_or_create.
  destruct (files w !! fname) as [text|].
  - destruct (json_load text); reflexivity.
  - destruct (read_error fs fname) as [exn|]; [reflexivity|].
    unfold datetime_now, _save_outcome. cbn [filename datetime_now].
    destruct (write_error fs (fname ++ ".tmp")%string) as [exn|].
    { eexists. split; reflexivity. }
    destruct (replace_error fs fname) as [exn|].
    { eexists. reflexivity. }
    eexists _, _. reflexivity.
Qed.

(** The file and the memory stay in step. *)
Lemma apply_op_synced (Hcodec : ∀ s, json_load (json_dump s) = LedgerState s)
    (st : @PortfolioManager N * @World Text) op :
  synced json_load st.1 st.2 →
  synced json_load (step st op).1 (step st op).2.
Proof.
  intros Hsync.
  destruct (apply_op_cases st op) as [-> | (s1 & -> & _)]; [exact Hsync|].
  cbn [fst snd]. eexists. split; [apply saved_world_durable | apply Hcodec].
Qed.

Lemma init_synced (Hcodec : ∀ s, json_load (json_dump s) = LedgerState s)
    fname capital (w : @World Text) p w' :
  PortfolioManager_init json_dump json_load now fs fname capital w
  = (Returned p, w') →
  synced json_load p w' ∧ filename p = fname.
Proof.
  unfold PortfolioManager_init, _load_or_create.
  destruct (files w !! fname) as [text|] eqn:E.
  - destruct (json_load text) as [| | |s] eqn:L; try discriminate.
    intros [= <- <-]. split; [|reflexivity]. exists text. now split.
  - destruct (read_error fs fname); [discriminate|].
    unfold datetime_now, _save_outcome. cbn [filename datetime_now].
    destruct (write_error fs _); [discriminate|].
    destruct (replace_error fs fname); [discriminate|].
    intros [= <- <-]. split; [|reflexivity].
    eexists. split; [|apply Hcodec].
    unfold os_replace, write_file; cbn [files filename state].
    rewrite lookup_insert_eq. cbn [files]. apply lookup_insert_eq.
Qed.

(** X5.  What the constructor has loaded or created, and what any sequence
    of purchases and sales has then made of it, is what a new constructor on
    the same file gets back, whatever initial capital it is given, and
    without writing anything.  The codec is assumed to read back what it
    wrote. *)
Theorem restart_recovers_state
    (Hcodec : ∀ s, json_load (json_dump s) = LedgerState s)
    fname capital (w : @World Text) p w' ops capital' :
  PortfolioManager_init json_dump json_load now fs fname capital w
  = (Returned p, w') →
  let st := run_all json_dump now ops (p, w') in
  PortfolioManager_init json_dump json_load now fs fname capital' st.2
  = (Returned {| filename := fname; initial_capital := capital';
                 state := state st.1 |}, st.2).
Proof.
  intros Hinit. cbv zeta.
  destruct (init_synced Hcodec _ _ _ _ _ Hinit) as [Hsync Hname].
  assert (synced json_load (run_all json_dump now ops (p, w')).1
            (run_all json_dump now ops (p, w')).2
          ∧ filename (run_all json_dump now ops (p, w')).1 = fname)
    as [(text & Hfile & Hload) Hname'].
  { apply (run_all_invariant
             (λ st, synced json_load st.1 st.2 ∧ filename st.1 = fname));
      [|now split].
    intros st op [Hs Hn]. split; [now apply apply_op_synced|].
    destruct (apply_op_cases st op) as [-> | (s1 & -> & _)]; assumption. }
  unfold PortfolioManager_init, _load_or_create.
  rewrite Hname' in Hfile. now rewrite Hfile, Hload.
Qed.

(** X6.  A purchase that succeeds followed by a sale of the same asset, at
    any price and fee rate, always sells, leaves the positions as they were
    without the asset (so exactly as they were if the asset was not held),
    and makes the history one entry longer. *)
Theorem buy_sell_positions self a price q fee_rate price' fee_rate' w :
  let rb := buy self a price q fee_rate w in
  rb.1.1 = true →
  let rs := sell rb.1.2 a price' fee_rate' rb.2 in
  rs.1.1 = true
  ∧ positions (state rs.1.2) = delete a (positions (state self))
  ∧ (get_position self a = None →
     positions (state rs.1.2) = positions (state self))
  ∧ length (history (state rs.1.2)) = S (length (history (state self))).
Proof.
  cbv zeta. rewrite execute_buy_eq.
  destruct (nltb _ _); [discriminate|]. intros _.
  cbv zeta. cbn [fst snd]. rewrite execute_sell_eq.
  match goal with |- context [get_position ?pm a] =>
    assert (get_position pm a =
            Some {| qty := q; entry_price := price;
                    entry_date := now (ticks w) |}) as ->
      by (unfold get_position; simpl; apply lookup_insert_eq)
  end.
  cbv zeta. cbn [fst snd state]. split; [reflexivity|].
  assert (positions
            (saved_state now
               (sold
                  (saved_state now
                     (bought (state self) a price q fee_rate (now (ticks w)))
                     {| files := files w; ticks := S (ticks w) |})
                  a {| qty := q; entry_price := price;
                       entry_date := now (ticks w) |}
                  price' fee_rate'
                  (now (ticks (saved_world json_dump now (filename self)
                     (bought (state self) a price q fee_rate (now (ticks w)))
                     {| files := files w; ticks := S (ticks w) |}))))
               {| files := files (saved_world json_dump now (filename self)
                     (bought (state self) a price q fee_rate (now (ticks w)))
                     {| files := files w; ticks := S (ticks w) |});
                  ticks := S (ticks (saved_world json_dump now (filename self)
                     (bought (state self) a price q fee_rate (now (ticks w)))
                     {| files := files w; ticks := S (ticks w) |})) |})
          = delete a (positions (state self))) as Hpos
    by (cbn; apply delete_insert_eq).
  split; [exact Hpos|]. split.
  - intros Hnone. rewrite Hpos. now apply delete_id.
  - cbn. rewrite length_app. cbn. lia.
Qed.

(** X7.  The self-test at the end of [state_manager.py], by what its file
    holds when it starts.  With a ledger state in the file, or with no file
    and a directory in which it can be created, the script runs to its end
    and the asset is not held then, whether the purchase was made, rejected
    or skipped.  With a file that is not JSON it exits with code 1, and with
    a file that is not text a [UnicodeDecodeError] escapes, the files being
    left as they are.  With a file that cannot be created the exception of
    the system call escapes. *)
Theorem state_manager_main_flat (w : @World Text) :
  let main := state_manager_main json_dump json_load now fs w in
  let fname := "test_paper_trading.json"%string in
  match files w !! fname with
  | Some text =>
      match json_load text with
      | LedgerState s =>
          ∃ p w', main = (Returned p, w') ∧ get_position p "BTC-USD" = None
                  ∧ filename p = fname
                  ∧ history s `prefix_of` history (state p)
      | NotJson => main = (Exited 1, w)
      | NotText => main = (Raised "UnicodeDecodeError", w)
      | OtherJson => main = (Foreign, w)
      end
  | None =>
      match read_error fs fname with
      | Some exn => main = (Raised exn, w)
      | None =>
          match write_error fs (fname ++ ".tmp")%string with
          | Some exn => ∃ w', main = (Raised exn, w') ∧ files w' = files w
          | None =>
              match replace_error fs fname with
              | Some exn => ∃ w', main = (Raised exn, w')
              | None =>
                  ∃ p w', main = (Returned p, w')
                          ∧ get_position p "BTC-USD" = None
                          ∧ filename p = fname
              end
          end
      end
  end.
Proof.
  cbv zeta.
  assert (∀ (p : @PortfolioManager N) (w1 : @World Text),
            ∃ p2 w3,
              (let '(portfolio1, w2) :=
                 match get_position p "BTC-USD" with
                 | Some _ => (p, w1)
                 | None =>
                     let '(_, p', w') :=
                       buy p "BTC-USD" (of_Z 60000) (dec 5 2)
                         default_fee_rate w1 in (p', w')
                 end in
               let '(_, portfolio2, w3) :=
                 sell portfolio1 "BTC-USD" (of_Z 65000) default_fee_rate w2 in
               (Returned portfolio2, w3)) = (Returned p2, w3)
              ∧ get_position p2 "BTC-USD" = None
              ∧ filename p2 = filename p
              ∧ history (state p) `prefix_of` history (state p2)) as Hrun.
  { intros p w1.
    pose proof (run_ops_invariant
                  (λ st, filename st.1 = filename p
                         ∧ history (state p) `prefix_of` history (state st.1)))
      as Hinv.
    assert (∀ st op,
              filename st.1 = filename p
              ∧ history (state p) `prefix_of` history (state st.1) →
              filename (step st op).1 = filename p
              ∧ history (state p) `prefix_of` history (state (step st op).1))
      as Hstep.
    { intros st op [Hn Hh].
      destruct (apply_op_cases st op) as [-> | (s1 & -> & Hpre)];
        [now split|].
      cbn [fst filename state]. split; [exact Hn|].
      unfold saved_state, set_last_updated; cbn [history].
      now transitivity (history (state st.1)). }
    assert (∀ p1 w2,
              filename p1 = filename p →
              history (state p) `prefix_of` history (state p1) →
              ∃ p2 w3,
                (let '(_, portfolio2, w3) :=
                   sell p1 "BTC-USD" (of_Z 65000) default_fee_rate w2 in
                 (Returned portfolio2, w3)) = (Returned p2, w3)
                ∧ get_position p2 "BTC-USD" = None
                ∧ filename p2 = filename p
                ∧ history (state p) `prefix_of` history (state p2)) as Hsell.
    { intros p1 w2 Hn Hh.
      pose proof (Hstep (p1, w2)
                    (OpSell "BTC-USD" (of_Z 65000) default_fee_rate)
                    (conj Hn Hh)) as [Hn' Hh'].
      cbn [apply_op fst snd] in Hn', Hh'.
      assert (get_position
                (sell p1 "BTC-USD" (of_Z 65000) default_fee_rate w2).1.2
                "BTC-USD" = None) as Hgone.
      { rewrite execute_sell_eq.
        destruct (get_position p1 "BTC-USD") eqn:E; [|exact E].
        unfold get_position; simpl. apply lookup_delete_eq. }
      destruct (sell p1 _ _ _ w2) as [[ok p2] w3].
      exists p2, w3. now repeat split. }
    destruct (get_position p "BTC-USD").
    - now apply Hsell.
    - pose proof (Hstep (p, w1)
                    (OpBuy "BTC-USD" (of_Z 60000) (dec 5 2) default_fee_rate)
                    (conj eq_refl (reflexivity _))) as [Hn Hh].
      cbn [apply_op fst snd] in Hn, Hh.
      destruct (buy p _ _ _ _ w1) as [[ok1 p1] w2].
      now apply Hsell. }
  pose proof (load_or_create_cases "test_paper_trading.json" (of_Z 10000) w)
    as Hinit.
  unfold state_manager_main.
  destruct (files w !! "test_paper_trading.json") as [text|].
  - destruct (json_load text) as [| | |s].
    + now rewrite Hinit.
    + now rewrite Hinit.
    + now rewrite Hinit.
    + rewrite Hinit.
      destruct (Hrun {| filename := "test_paper_trading.json";
                        initial_capital := of_Z 10000; state := s |} w)
        as (p2 & w3 & E & Hgone & Hn & Hh).
      exists p2, w3. now rewrite E.
  - destruct (read_error fs _) as [exn|]; [now rewrite Hinit|].
    destruct (write_error fs _) as [exn|].
    { destruct Hinit as (w' & E & Hfiles). exists w'. now rewrite E. }
    destruct (replace_error fs _) as [exn|].
    { destruct Hinit as (w' & E). exists w'. now rewrite E. }
    destruct Hinit as (s & w' & E). rewrite E.
    destruct (Hrun {| filename := "test_paper_trading.json";
                      initial_capital := of_Z 10000; state := s |} w')
      as (p2 & w3 & E' & Hgone & Hn & _).
    exists p2, w3. now rewrite E'.
Qed.

End LedgerExtras.

(** ** The decision loop *)

Section EngineExtras.

Context {N : Type} `{Num N} {Text : Type}.
Variable json_dump : @PortfolioState N -> Text.
Variable now : nat -> string.

Local Abbreviation exit1 := (exit_step json_dump now).
Local Abbreviation entry1 := (entry_step json_dump now).
Local Abbreviation exits := (exit_pass json_dump now).
Local Abbreviation entries := (entry_pass json_dump now).
Local Abbreviation cycle := (run_daily_execution json_dump now).
Local Abbreviation State :=
  (@LiveDecisionEngine N * @World Text * list (@LedgerCall N))%type.

(** One iteration of the exit loop: nothing, or the sale of a held asset
    whose close is below its 20-day low. *)
Lemma exit_step_cases (st : State) a data :
  exit1 st (a, data) = st
  ∨ ∃ pos s1 w1,
      held st a = Some pos
      ∧ (Close data <? Min_20 data)%num = true
      ∧ s1 = sold (state (portfolio st.1.1)) a pos (Close data)
               default_fee_rate (now (ticks st.1.2))
      ∧ w1 = {| files := files st.1.2; ticks := S (ticks st.1.2) |}
      ∧ exit1 st (a, data) =
        (set_portfolio st.1.1
           {| filename := filename (portfolio st.1.1);
              initial_capital := initial_capital (portfolio st.1.1);
              state := saved_state now s1 w1 |},
         saved_world json_dump now (filename (portfolio st.1.1)) s1 w1,
         st.2 ++ [Sell a (Close data)]).
Proof.
  destruct st as [[self w] calls]. unfold exit_step, held. cbn [fst snd].
  destruct (get_position (portfolio self) a) as [pos|] eqn:E; [|now left].
  destruct (Close data <? Min_20 data)%num eqn:L; [|now left].
  right. exists pos. eexists _, _. split; [reflexivity|].
  split; [reflexivity|]. split; [reflexivity|]. split; [reflexivity|].
  rewrite execute_sell_eq, E. reflexivity.
Qed.

(** One iteration of the entry loop: nothing, or the purchase of an asset
    that is not held, below the cap, on a breakout with a strong trend and a
    positive risk per unit; the purchase itself may be rejected by the
    ledger. *)
Lemma entry_step_cases (st : State) a data :
  entry1 st (a, data) = st
  ∨ ∃ q r,
      held st a = None
      ∧ (Z.of_nat (open_count st) < max_positions st.1.1)%Z
      ∧ (Close data >? Max_50 data)%num = true
      ∧ (ADX data >? of_Z 25)%num = true
      ∧ risk_positive (Close data) (Min_20 data) = true
      ∧ size_position (get_cash (portfolio st.1.1)) (risk_per_trade st.1.1)
          (Close data) (Min_20 data) = Some q
      ∧ r = execute_buy json_dump now (portfolio st.1.1) a (Close data) q
              default_fee_rate st.1.2
      ∧ entry1 st (a, data) =
        (set_portfolio st.1.1 r.1.2, r.2, st.2 ++ [Buy a (Close data) q]).
Proof.
  destruct st as [[self w] calls].
  unfold entry_step, held, open_count. cbn [fst snd].
  destruct (get_position (portfolio self) a) as [pos|] eqn:E; [now left|].
  destruct (_ <=? _)%Z eqn:C; [now left|]. apply Z.leb_gt in C.
  destruct (Close data >? Max_50 data)%num eqn:B; [|now left].
  destruct (ADX data >? of_Z 25)%num eqn:A; [|now left].
  destruct (size_position _ _ _ _) as [q|] eqn:Q; [|now left].
  right. exists q. eexists. split; [reflexivity|]. split; [exact C|].
  split; [reflexivity|]. split; [reflexivity|]. split.
  { rewrite size_position_eq in Q.
    destruct (risk_positive _ _); [reflexivity | discriminate]. }
  split; [reflexivity|]. split; [reflexivity|].
  now destruct (execute_buy _ _ _ _ _ _ _ _) as [[ok pm] w'].
Qed.

Lemma fold_left_invariant {A B : Type} (f : A → B → A) (P : A → Prop)
    (l : list B) :
  (∀ x b, b ∈ l → P x → P (f x b)) → ∀ x, P x → P (fold_left f l x).
Proof.
  induction l as [|b l IH]; intros Hstep x Hx; cbn [fold_left]; [exact Hx|].
  apply IH.
  - intros y c Hc. apply Hstep. now apply list_elem_of_further.
  - apply Hstep; [apply list_elem_of_here | exact Hx].
Qed.

(** *** What one iteration of the exit loop does *)

Lemma exit_step_config (st : State) item :
  max_positions (exit1 st item).1.1 = max_positions st.1.1
  ∧ risk_per_trade (exit1 st item).1.1 = risk_per_trade st.1.1.
Proof.
  destruct item as [a data].
  destruct (exit_step_cases st a data) as [-> | (? & ? & ? & _ & _ & _ & _ & ->)];
    now split.
Qed.

Lemma exit_step_held_other (st : State) a data b :
  b ≠ a → held (exit1 st (a, data)) b = held st b.
Proof.
  intros Hb.
  destruct (exit_step_cases st a data)
    as [-> | (pos & s1 & w1 & _ & _ & -> & _ & ->)]; [reflexivity|].
  unfold held, get_position; simpl. now apply lookup_delete_ne.
Qed.

Lemma exit_step_held_same (st : State) a data :
  held (exit1 st (a, data)) a = None
  ∨ exit1 st (a, data) = st ∧ (Close data <? Min_20 data)%num = false
  ∨ exit1 st (a, data) = st ∧ held st a = None.
Proof.
  destruct st as [[self w] calls]. unfold exit_step, held. cbn [fst snd].
  destruct (get_position (portfolio self) a) as [pos|] eqn:E; [|auto].
  destruct (Close data <? Min_20 data)%num eqn:L; [|auto].
  left. rewrite execute_sell_eq, E. cbn.
  unfold get_position; simpl. apply lookup_delete_eq.
Qed.

Lemma exit_step_held_shrinks (st : State) item b pos :
  held (exit1 st item) b = Some pos → held st b = Some pos.
Proof.
  destruct item as [a data].
  destruct (decide (b = a)) as [->|Hne].
  - destruct (exit_step_held_same st a data) as [E | [[-> _] | [-> _]]];
      [rewrite E; discriminate | auto..].
  - now rewrite exit_step_held_other.
Qed.

Lemma exit_step_sold (st : State) a data :
  (Close data <? Min_20 data)%num = true → held (exit1 st (a, data)) a = None.
Proof.
  intros L.
  destruct (exit_step_held_same st a data) as [E | [[_ L'] | [-> E]]];
    [exact E | congruence | exact E].
Qed.

Lemma exit_step_count (st : State) item :
  (open_count (exit1 st item) <= open_count st)%nat.
Proof.
  destruct item as [a data].
  destruct (exit_step_cases st a data)
    as [-> | (pos & s1 & w1 & _ & _ & -> & _ & ->)]; [reflexivity|].
  unfold open_count, get_active_positions_count; simpl.
  rewrite map_size_delete. destruct (_ !! _); cbn; lia.
Qed.

Lemma exit_step_trace (st : State) a data :
  ∃ l, (exit1 st (a, data)).2 = st.2 ++ l
       ∧ ∀ c, c ∈ l →
           c = Sell a (Close data)
           ∧ (Close data <? Min_20 data)%num = true.
Proof.
  destruct (exit_step_cases st a data)
    as [-> | (pos & s1 & w1 & _ & L & _ & _ & ->)].
  - exists []. split; [now rewrite app_nil_r | intros c Hc%elem_of_nil; done].
  - eexists. split; [reflexivity|].
    intros c ->%list_elem_of_singleton. now split.
Qed.

(** *** What one iteration of the entry loop does *)

Lemma entry_step_config (st : State) item :
  max_positions (entry1 st item).1.1 = max_positions st.1.1
  ∧ risk_per_trade (entry1 st item).1.1 = risk_per_trade st.1.1.
Proof.
  destruct item as [a data].
  destruct (entry_step_cases st a data)
    as [-> | (? & ? & _ & _ & _ & _ & _ & _ & _ & ->)]; now split.
Qed.

Lemma entry_step_held_other (st : State) a data b :
  b ≠ a → held (entry1 st (a, data)) b = held st b.
Proof.
  intros Hb.
  destruct (entry_step_cases st a data)
    as [-> | (q & r & _ & _ & _ & _ & _ & _ & -> & ->)]; [reflexivity|].
  unfold held. cbn [fst snd set_portfolio portfolio].
  rewrite execute_buy_eq. destruct (nltb _ _); [reflexivity|].
  unfold get_position; simpl. now apply lookup_insert_ne.
Qed.

Lemma entry_step_held_kept (st : State) item b pos :
  held st b = Some pos → held (entry1 st item) b = Some pos.
Proof.
  destruct item as [a data]. intros Hb.
  destruct (decide (b = a)) as [->|Hne].
  - destruct (entry_step_cases st a data)
      as [-> | (q & r & Ha & _)]; [exact Hb | congruence].
  - now rewrite entry_step_held_other.
Qed.

Lemma entry_step_history (st : State) item :
  trade_history (entry1 st item) = trade_history st.
Proof.
  destruct item as [a data].
  destruct (entry_step_cases st a data)
    as [-> | (q & r & _ & _ & _ & _ & _ & _ & -> & ->)]; [reflexivity|].
  unfold trade_history. cbn [fst snd set_portfolio portfolio].
  rewrite execute_buy_eq. destruct (nltb _ _); reflexivity.
Qed.

Lemma entry_step_count (st : State) item :
  (Z.of_nat (open_count st) <= max_positions st.1.1)%Z →
  (Z.of_nat (open_count (entry1 st item)) <= max_positions st.1.1)%Z.
Proof.
  destruct item as [a data]. intros Hcap.
  destruct (entry_step_cases st a data)
    as [-> | (q & r & Ha & Hlt & _ & _ & _ & _ & -> & ->)]; [exact Hcap|].
  unfold open_count in *. cbn [fst snd set_portfolio portfolio].
  rewrite execute_buy_eq. destruct (nltb _ _); [exact Hcap|].
  unfold get_active_positions_count in *; simpl.
  rewrite map_size_insert_None by exact Ha. lia.
Qed.

Lemma entry_step_trace (st : State) a data :
  ∃ l, (entry1 st (a, data)).2 = st.2 ++ l
       ∧ ∀ c, c ∈ l →
           ∃ q, c = Buy a (Close data) q
                ∧ (Close data >? Max_50 data)%num = true
                ∧ (ADX data >? of_Z 25)%num = true
                ∧ risk_positive (Close data) (Min_20 data) = true.
Proof.
  destruct (entry_step_cases st a data)
    as [-> | (q & r & _ & _ & B & A & R & _ & _ & ->)].
  - exists []. split; [now rewrite app_nil_r | intros c Hc%elem_of_nil; done].
  - eexists. split; [reflexivity|].
    intros c ->%list_elem_of_singleton. exists q. auto.
Qed.

(** *** The two passes and the cycle *)

Lemma exit_pass_config (st : State) market_data :
  max_positions (exits st market_data).1.1 = max_positions st.1.1
  ∧ risk_per_trade (exits st market_data).1.1 = risk_per_trade st.1.1.
Proof.
  apply (fold_left_invariant exit1
           (λ st', max_positions st'.1.1 = max_positions st.1.1
                   ∧ risk_per_trade st'.1.1 = risk_per_trade st.1.1));
    [|now split].
  intros st1 item _ [Hm Hr].
  destruct (exit_step_config st1 item) as [-> ->]. now split.
Qed.

Lemma exit_pass_held_shrinks (st : State) market_data b pos :
  held (exits st market_data) b = Some pos → held st b = Some pos.
Proof.
  revert b pos.
  apply (fold_left_invariant exit1
           (λ st', ∀ b pos, held st' b = Some pos → held st b = Some pos));
    [|auto].
  intros st1 item _ IH b pos Hb. eauto using exit_step_held_shrinks.
Qed.

Lemma exit_pass_count (st : State) market_data :
  (open_count (exits st market_data) <= open_count st)%nat.
Proof.
  apply (fold_left_invariant exit1
           (λ st', (open_count st' <= open_count st)%nat)); [|reflexivity].
  intros st1 item _ IH. pose proof (exit_step_count st1 item). lia.
Qed.

Lemma exit_pass_held_absent (st : State) market_data a :
  a ∉ market_data.*1 → held (exits st market_data) a = held st a.
Proof.
  intros Ha.
  apply (fold_left_invariant exit1 (λ st', held st' a = held st a));
    [|reflexivity].
  intros st1 [b data] Hin IH. rewrite exit_step_held_other; [exact IH|].
  intros ->. apply Ha. apply list_elem_of_fmap. now exists (b, data).
Qed.

Lemma exit_pass_trace (st : State) market_data :
  ∃ l, (exits st market_data).2 = st.2 ++ l
       ∧ Forall (justified market_data) l
       ∧ ∀ c, c ∈ l → ∃ p, c = Sell (call_asset c) p.
Proof.
  apply (fold_left_invariant exit1
           (λ st', ∃ l, st'.2 = st.2 ++ l
                        ∧ Forall (justified market_data) l
                        ∧ ∀ c, c ∈ l → ∃ p, c = Sell (call_asset c) p)).
  - intros st1 [a data] Hin (l & E & Hj & Hs).
    destruct (exit_step_trace st1 a data) as (l1 & E1 & H1).
    exists (l ++ l1). split; [now rewrite E1, E, app_assoc|]. split.
    + apply Forall_app. split; [exact Hj|].
      apply Forall_forall. intros c Hc. destruct (H1 c Hc) as [-> L].
      exists data. auto.
    + intros c [Hc|Hc]%elem_of_app; [auto|].
      destruct (H1 c Hc) as [-> _]. eauto.
  - exists []. split; [now rewrite app_nil_r|]. split; [constructor|].
    intros c Hc%elem_of_nil; done.
Qed.

Lemma exit_pass_sold (st : State) market_data a data :
  NoDup market_data.*1 → (a, data) ∈ market_data →
  (Close data <? Min_20 data)%num = true →
  held (exits st market_data) a = None.
Proof.
  unfold exit_pass. revert st.
  induction market_data as [|[b d] rest IH]; intros st Hnd Hin L.
  - now apply elem_of_nil in Hin.
  - cbn [fold_left]. rewrite fmap_cons in Hnd. cbn [fst] in Hnd.
    apply NoDup_cons in Hnd as [Hb Hrest].
    apply elem_of_cons in Hin as [E | Hin].
    + injection E as <- <-.
      change (fold_left exit1 rest (exit1 st (a, data)))
        with (exits (exit1 st (a, data)) rest).
      rewrite exit_pass_held_absent by exact Hb. now apply exit_step_sold.
    + now apply IH.
Qed.

Lemma entry_pass_config (st : State) market_data :
  max_positions (entries st market_data).1.1 = max_positions st.1.1
  ∧ risk_per_trade (entries st market_data).1.1 = risk_per_trade st.1.1.
Proof.
  apply (fold_left_invariant entry1
           (λ st', max_positions st'.1.1 = max_positions st.1.1
                   ∧ risk_per_trade st'.1.1 = risk_per_trade st.1.1));
    [|now split].
  intros st1 item _ [Hm Hr].
  destruct (entry_step_config st1 item) as [-> ->]. now split.
Qed.

Lemma entry_pass_held_absent (st : State) market_data a :
  a ∉ market_data.*1 → held (entries st market_data) a = held st a.
Proof.
  intros Ha.
  apply (fold_left_invariant entry1 (λ st', held st' a = held st a));
    [|reflexivity].
  intros st1 [b data] Hin IH. rewrite entry_step_held_other; [exact IH|].
  intros ->. apply Ha. apply list_elem_of_fmap. now exists (b, data).
Qed.

Lemma entry_pass_refused (st : State) market_data a :
  (∀ data, (a, data) ∈ market_data →
           risk_positive (Close data) (Min_20 data) = false) →
  held (entries st market_data) a = held st a.
Proof.
  intros Hr.
  apply (fold_left_invariant entry1 (λ st', held st' a = held st a));
    [|reflexivity].
  intros st1 [b data] Hin IH.
  destruct (decide (b = a)) as [->|Hne].
  - destruct st1 as [[self w] calls].
    rewrite entry_step_refused by now apply Hr. exact IH.
  - rewrite entry_step_held_other by congruence. exact IH.
Qed.

Lemma entry_pass_trace (st : State) market_data :
  ∃ l, (entries st market_data).2 = st.2 ++ l
       ∧ Forall (justified market_data) l
       ∧ ∀ c, c ∈ l → ∃ p q, c = Buy (call_asset c) p q.
Proof.
  apply (fold_left_invariant entry1
           (λ st', ∃ l, st'.2 = st.2 ++ l
                        ∧ Forall (justified market_data) l
                        ∧ ∀ c, c ∈ l → ∃ p q, c = Buy (call_asset c) p q)).
  - intros st1 [a data] Hin (l & E & Hj & Hs).
    destruct (entry_step_trace st1 a data) as (l1 & E1 & H1).
    exists (l ++ l1). split; [now rewrite E1, E, app_assoc|]. split.
    + apply Forall_app. split; [exact Hj|].
      apply Forall_forall. intros c Hc.
      destruct (H1 c Hc) as (q & -> & B & A & R). exists data. auto.
    + intros c [Hc|Hc]%elem_of_app; [auto|].
      destruct (H1 c Hc) as (q & -> & _). eauto.
  - exists []. split; [now rewrite app_nil_r|]. split; [constructor|].
    intros c Hc%elem_of_nil; done.
Qed.

(** The calls of a cycle: the sales of the exit pass, then the purchases of
    the entry pass, each with its reason in the market data. *)
Lemma cycle_trace self market_data (w : @World Text) :
  ∃ sales purchases,
    (cycle self market_data w).2 = sales ++ purchases
    ∧ Forall (justified market_data) sales
    ∧ Forall (justified market_data) purchases
    ∧ (∀ c, c ∈ sales → ∃ p, c = Sell (call_asset c) p)
    ∧ (∀ c, c ∈ purchases → ∃ p q, c = Buy (call_asset c) p q).
Proof.
  unfold run_daily_execution.
  destruct (exit_pass_trace (self, w, []) market_data) as (l1 & E1 & J1 & S1).
  destruct (entry_pass_trace (exits (self, w, []) market_data) market_data)
    as (l2 & E2 & J2 & S2).
  exists l1, l2. rewrite E2, E1. auto.
Qed.

Lemma exit_step_history (st : State) item :
  trade_history st `prefix_of` trade_history (exit1 st item).
Proof.
  destruct item as [a data].
  destruct (exit_step_cases st a data)
    as [-> | (pos & s1 & w1 & _ & _ & -> & _ & ->)]; [reflexivity|].
  unfold trade_history; simpl. now apply prefix_app_r.
Qed.

Lemma justified_asset market_data (c : @LedgerCall N) :
  justified market_data c → call_asset c ∈ market_data.*1.
Proof.
  destruct c as [a p | a p q]; cbn; intros (data & Hin & _);
    apply list_elem_of_fmap; now exists (a, data).
Qed.

Lemma unique_bar (market_data : list (string * @Bar N)) a d1 d2 :
  NoDup market_data.*1 → (a, d1) ∈ market_data → (a, d2) ∈ market_data →
  d1 = d2.
Proof.
  induction market_data as [|[b d] rest IH]; intros Hnd H1 H2.
  - now apply elem_of_nil in H1.
  - rewrite fmap_cons in Hnd. cbn [fst] in Hnd.
    apply NoDup_cons in Hnd as [Hb Hrest].
    assert (∀ d', (b, d') ∈ rest → False) as Hfresh.
    { intros d' Hin. apply Hb, list_elem_of_fmap. now exists (b, d'). }
    apply elem_of_cons in H1 as [E1 | H1];
      apply elem_of_cons in H2 as [E2 | H2].
    + congruence.
    + injection E1 as -> ->. now apply Hfresh in H2.
    + injection E2 as -> ->. now apply Hfresh in H1.
    + now apply IH.
Qed.

(** X8.  The cap on open positions is an invariant of the daily cycle: when
    the number of open positions is at most [max_positions] before the
    cycle, it is at most [max_positions] after it, whatever the market
    data. *)
Theorem cycle_keeps_cap self market_data (w : @World Text) :
  (Z.of_nat (get_active_positions_count (portfolio self))
     <= max_positions self)%Z →
  (Z.of_nat (open_count (cycle self market_data w)) <= max_positions self)%Z.
Proof.
  intros Hcap. unfold run_daily_execution.
  pose proof (exit_pass_count (self, w, []) market_data) as Hexit.
  destruct (exit_pass_config (self, w, []) market_data) as [Hm _].
  cbn [fst] in Hm. unfold open_count at 2 in Hexit. cbn [fst] in Hexit.
  apply (fold_left_invariant entry1
           (λ st', (Z.of_nat (open_count st') <= max_positions self)%Z
                   ∧ max_positions st'.1.1 = max_positions self)).
  - intros st1 item _ [Hc Hmax].
    destruct (entry_step_config st1 item) as [Hm1 _].
    split; [|congruence]. rewrite <- Hmax. apply entry_step_count. lia.
  - split; [lia | exact Hm].
Qed.

(** X9.  The entry pass never touches what is there: every position held
    before the pass is held after it with the same record (no purchase
    replaces one), and the history of closed trades is as it was. *)
Theorem entry_pass_frame (st : State) market_data :
  trade_history (entries st market_data) = trade_history st
  ∧ ∀ b pos, held st b = Some pos →
             held (entries st market_data) b = Some pos.
Proof.
  apply (fold_left_invariant entry1
           (λ st', trade_history st' = trade_history st
                   ∧ ∀ b pos, held st b = Some pos → held st' b = Some pos));
    [|auto].
  intros st1 item _ [Hh Hk]. split.
  - now rewrite entry_step_history.
  - intros b pos Hb. apply entry_step_held_kept. now apply Hk.
Qed.

(** X10.  The exit pass only closes positions: every position held after
    the pass was held before it with the same record, the number of open
    positions has not grown, the history has only grown at its end, and
    every ledger call of the pass is a sale. *)
Theorem exit_pass_only_closes (st : State) market_data :
  (∀ b pos, held (exits st market_data) b = Some pos → held st b = Some pos)
  ∧ (open_count (exits st market_data) <= open_count st)%nat
  ∧ trade_history st `prefix_of` trade_history (exits st market_data)
  ∧ ∃ l, (exits st market_data).2 = st.2 ++ l
         ∧ ∀ c, c ∈ l → ∃ p, c = Sell (call_asset c) p.
Proof.
  split; [intros b pos; apply exit_pass_held_shrinks|].
  split; [apply exit_pass_count|]. split.
  - apply (fold_left_invariant exit1
             (λ st', trade_history st `prefix_of` trade_history st'));
      [|reflexivity].
    intros st1 item _ IH. etransitivity; [exact IH | apply exit_step_history].
  - destruct (exit_pass_trace st market_data) as (l & E & _ & Hs). eauto.
Qed.

(** X11.  An asset for which there is no market data (its download came
    back empty) is left alone for the cycle: its position, held or not, is
    as before, and no ledger call is about it. *)
Theorem cycle_skips_missing_data self market_data (w : @World Text) a :
  a ∉ market_data.*1 →
  held (cycle self market_data w) a = get_position (portfolio self) a
  ∧ Forall (λ c, call_asset c ≠ a) (cycle self market_data w).2.
Proof.
  intros Ha. split.
  - unfold run_daily_execution.
    rewrite entry_pass_held_absent, exit_pass_held_absent by exact Ha.
    reflexivity.
  - destruct (cycle_trace self market_data w)
      as (l1 & l2 & -> & J1 & J2 & _ & _).
    apply Forall_app. split; eapply Forall_impl; eauto;
      intros c Hc%justified_asset; congruence.
Qed.

(** X12.  The loop trades on its signals only.  The ledger calls of a cycle
    are the sales of the exit pass followed by the purchases of the entry
    pass; every sale is of an asset whose close is below its 20-day low, at
    that close; every purchase is of an asset whose close is above its
    50-day high, with an ADX above 25 and a positive risk per unit, at that
    close. *)
Theorem cycle_calls_justified self market_data (w : @World Text) :
  Forall (justified market_data) (cycle self market_data w).2
  ∧ ∃ sales purchases,
      (cycle self market_data w).2 = sales ++ purchases
      ∧ (∀ c, c ∈ sales → ∃ p, c = Sell (call_asset c) p)
      ∧ (∀ c, c ∈ purchases → ∃ p q, c = Buy (call_asset c) p q).
Proof.
  destruct (cycle_trace self market_data w)
    as (l1 & l2 & E & J1 & J2 & S1 & S2).
  split; [rewrite E; apply Forall_app; auto | eauto].
Qed.

Section WithOrder.

Context `{!OrderLaws N}.

Lemma sold_not_bought (market_data : list (string * @Bar N)) a d1 d2 :
  NoDup market_data.*1 → (a, d1) ∈ market_data → (a, d2) ∈ market_data →
  (Close d1 <? Min_20 d1)%num = true →
  risk_positive (Close d2) (Min_20 d2) = false.
Proof.
  intros Hnd H1 H2 L. rewrite <- (unique_bar market_data a d1 d2) by assumption.
  now apply below_not_positive.
Qed.

(** X13.  No asset is sold and bought in the same cycle: with one bar per
    asset, a close below the 20-day low, which is what sells, leaves no
    positive risk per unit, which a purchase needs. *)
Theorem no_sale_and_purchase self market_data (w : @World Text) a p p' q :
  NoDup market_data.*1 →
  Sell a p ∈ (cycle self market_data w).2 →
  Buy a p' q ∉ (cycle self market_data w).2.
Proof.
  intros Hnd Hs Hb.
  destruct (cycle_trace self market_data w)
    as (l1 & l2 & E & J1 & J2 & _ & _).
  assert (Forall (justified market_data) (cycle self market_data w).2) as J
    by (rewrite E; apply Forall_app; auto).
  rewrite Forall_forall in J.
  destruct (J _ Hs) as (d1 & H1 & _ & L).
  destruct (J _ Hb) as (d2 & H2 & _ & _ & _ & R).
  rewrite (sold_not_bought market_data a d1 d2) in R by assumption.
  discriminate.
Qed.

(** X15.  The stop is final for the cycle: with one bar per asset, an asset
    whose close is below its 20-day low is not held when the cycle ends,
    whether it was held before or not. *)
Theorem stop_loss_exits self market_data (w : @World Text) a data :
  NoDup market_data.*1 → (a, data) ∈ market_data →
  (Close data <? Min_20 data)%num = true →
  held (cycle self market_data w) a = None.
Proof.
  intros Hnd Hin L. unfold run_daily_execution.
  rewrite entry_pass_refused.
  - now apply (exit_pass_sold _ _ a data).
  - intros d2 H2. now apply (sold_not_bought market_data a data d2).
Qed.

End WithOrder.

End EngineExtras.

(** ** The two arithmetics *)

#[export] Instance exact_order_laws : OrderLaws Qc.
Proof.
  split. intros a b L%exact_ltb_lt.
  apply (exact_risk_refused a b). now apply Qclt_le_weak.
Qed.

Lemma SF_ltb_leb (x y : spec_float) : SFltb x y = true → SFleb x y = true.
Proof. unfold SFltb, SFleb. now destruct (SFcompare x y) as [[]|]. Qed.

#[export] Instance float_order_laws : OrderLaws float.
Proof.
  split. intros a b L. apply float_sub_not_positive.
  cbn [nltb float_num] in L. rewrite ltb_spec in L. rewrite leb_spec.
  now apply SF_ltb_leb.
Qed.

(** A NaN compares false with everything, and a difference with a NaN is a
    NaN. *)
Lemma float_nan_below (x y : float) :
  float_is_nan x = true → (x <? y)%num = false.
Proof.
  unfold float_is_nan. cbn [nltb float_num]. rewrite ltb_spec.
  now destruct (Prim2SF x).
Qed.

Lemma float_nan_above (x y : float) :
  float_is_nan y = true → (x <? y)%num = false.
Proof.
  unfold float_is_nan. cbn [nltb float_num]. rewrite ltb_spec.
  destruct (Prim2SF y); try discriminate. intros _.
  unfold SFltb, SFcompare. now destruct (Prim2SF x).
Qed.

Lemma float_nan_sub (x y : float) :
  float_is_nan y = true → float_is_nan (x - y)%num = true.
Proof.
  unfold float_is_nan. cbn [nsub float_num]. rewrite sub_spec.
  destruct (Prim2SF y); try discriminate. intros _.
  now destruct (Prim2SF x).
Qed.

Section Binary64Engine.

Context {Text : Type}.
Variable json_dump : @PortfolioState float -> Text.
Variable now : nat -> string.

(** X14.  Indicators that are not there yet never trade.  In binary64, an
    asset whose bar has a NaN for the 50-day high, for the ADX or for the
    20-day low is not bought in the cycle; when the 20-day low is a NaN it
    is not sold either, so no ledger call is about it. *)
Theorem nan_indicators_never_trade self market_data (w : @World Text) a :
  (∀ data, (a, data) ∈ market_data →
           float_is_nan (Max_50 data) || float_is_nan (ADX data)
           || float_is_nan (Min_20 data) = true) →
  Forall (λ c, ¬ buys a c)
         (run_daily_execution json_dump now self market_data w).2
  ∧ ((∀ data, (a, data) ∈ market_data →
              float_is_nan (Min_20 data) = true) →
     Forall (λ c, call_asset c ≠ a)
            (run_daily_execution json_dump now self market_data w).2).
Proof.
  intros Hnan.
  destruct (cycle_trace json_dump now self market_data w)
    as (l1 & l2 & E & J1 & J2 & _ & _).
  assert (Forall (justified market_data)
            (run_daily_execution json_dump now self market_data w).2) as J
    by (rewrite E; apply Forall_app; auto).
  assert (∀ data, float_is_nan (Min_20 data) = true →
                  risk_positive (Close data) (Min_20 data) = false) as Hrisk.
  { intros data Hm. unfold risk_positive. apply float_nan_above.
    now apply float_nan_sub. }
  split.
  - eapply Forall_impl; [exact J|].
    intros [b p | b p q] Hj; cbn; [tauto|]. intros ->.
    destruct Hj as (data & Hin & _ & B & A & R).
    specialize (Hnan data Hin).
    apply orb_true_iff in Hnan as [[Hn|Hn]%orb_true_iff | Hn].
    + rewrite (float_nan_below _ _ Hn) in B. discriminate.
    + rewrite (float_nan_above _ _ Hn) in A. discriminate.
    + rewrite (Hrisk data Hn) in R. discriminate.
  - intros Hmin. eapply Forall_impl; [exact J|].
    intros [b p | b p q] Hj; cbn; intros ->.
    + destruct Hj as (data & Hin & _ & L).
      rewrite (float_nan_above _ _ (Hmin data Hin)) in L. discriminate.
    + destruct Hj as (data & Hin & _ & _ & _ & R).
      rewrite (Hrisk data (Hmin data Hin)) in R. discriminate.
Qed.

End Binary64Engine.

Section ExactEngine.

Context {Text : Type}.
Variable json_dump : @PortfolioState Qc -> Text.
Variable now : nat -> string.

Local Open Scope Qc_scope.

Lemma exact_div_nonneg (x y : Qc) : 0 <= x → 0 < y → 0 <= x / y.
Proof.
  intros Hx Hy. unfold Qcdiv.
  apply Qcmult_nonneg_nonneg; [exact Hx|].
  now apply Qclt_le_weak, Qcinv_pos.
Qed.

Lemma exact_risk_positive (entry stop : Qc) :
  risk_positive entry stop = true → 0 < entry - stop.
Proof. unfold risk_positive. intros R. now apply exact_ltb_lt in R. Qed.

Lemma default_fee_rate_small : (@default_fee_rate Qc _ <= 1)%Qc.
Proof. vm_compute. discriminate. Qed.

Lemma default_fee_rate_positive : (0 < @default_fee_rate Qc _)%Qc.
Proof. vm_compute. reflexivity. Qed.

(** X17.  The sizing keeps the loss at the stop within the risk budget: in
    exact arithmetic, the quantity times the distance from the entry price
    to the stop is at most the capital times the risk fraction, and is
    equal to it when the cash cap does not bind. *)
Theorem sized_risk_within_budget (capital fraction entry stop q : Qc) :
  size_position capital fraction entry stop = Some q →
  q * (entry - stop) <= capital * fraction
  ∧ ((capital / entry <? capital * fraction / (entry - stop))%num = false →
     q * (entry - stop) = capital * fraction).
Proof.
  rewrite size_position_eq.
  destruct (risk_positive entry stop) eqn:R; [|discriminate].
  apply exact_risk_positive in R. intros [= <-].
  assert (entry - stop ≠ 0) as Hne
    by (intros E; rewrite E in R; now apply Qclt_not_le in R; apply R, Qcle_refl).
  assert (capital * fraction / (entry - stop) * (entry - stop)
          = capital * fraction) as E by now field.
  split.
  - rewrite <- E at 2.
    apply Qcmult_le_compat_r; [apply py_min_le_l | now apply Qclt_le_weak].
  - intros Hcap. unfold py_min. cbn [nltb nmul ndiv nsub Qc_num] in *.
    rewrite Hcap. exact E.
Qed.

(** X18.  The cash cap leaves no room for the fee: in exact arithmetic,
    with a positive cash and a positive entry price, when the cap binds
    (the affordable quantity is below the risk-sized one), the sized
    purchase costs all the cash before fees, so with any positive fee rate
    [execute_buy] rejects it and changes nothing. *)
Theorem capped_purchase_rejected (self : @PortfolioManager Qc) a fraction
    entry stop fee_rate q (w : @World Text) :
  0 < cash (state self) → 0 < entry → 0 < fee_rate →
  (cash (state self) / entry
     <? cash (state self) * fraction / (entry - stop))%num = true →
  size_position (cash (state self)) fraction entry stop = Some q →
  q * entry = cash (state self)
  ∧ execute_buy json_dump now self a entry q fee_rate w = (false, self, w).
Proof.
  intros Hcash Hentry Hfee Hcap. rewrite size_position_eq.
  destruct (risk_positive entry stop); [|discriminate].
  unfold py_min. rewrite Hcap. intros [= <-].
  assert (entry ≠ 0) as Hne
    by (intros E; rewrite E in Hentry;
        now apply Qclt_not_le in Hentry; apply Hentry, Qcle_refl).
  assert (cash (state self) / entry * entry = cash (state self)) as E
    by now field.
  split; [exact E|].
  rewrite execute_buy_eq. cbn [nmul nadd ndiv nltb Qc_num] in *. rewrite E.
  assert (Exact.ltb (cash (state self))
            (cash (state self) + cash (state self) * fee_rate) = true) as ->;
    [|reflexivity].
  apply exact_ltb_lt.
  assert (0 < cash (state self) * fee_rate) as Hpos
    by now apply Qcmult_pos_pos.
  rewrite <- (Qcplus_0_r (cash (state self))) at 1.
  now apply Qcplus_lt_mono_l.
Qed.

Lemma sized_quantity_nonneg (capital fraction entry stop q : Qc) :
  0 <= capital → 0 <= fraction → 0 < entry →
  size_position capital fraction entry stop = Some q → 0 <= q.
Proof.
  intros Hc Hf He. rewrite size_position_eq.
  destruct (risk_positive entry stop) eqn:R; [|discriminate].
  apply exact_risk_positive in R. intros [= <-].
  unfold py_min. destruct (_ <? _)%num;
    cbn [nmul ndiv nsub Qc_num]; apply exact_div_nonneg; auto.
  now apply Qcmult_nonneg_nonneg.
Qed.

(** X16.  The daily cycle keeps the ledger sound: in exact arithmetic, when
    the cash is non-negative and no negative quantity is held, the risk
    fraction is non-negative and every close in the market data is
    positive, then after the cycle the cash is non-negative and no
    negative quantity is held. *)
Theorem cycle_keeps_solvent (self : @LiveDecisionEngine Qc) market_data
    (w : @World Text) :
  solvent (portfolio self) → 0 <= risk_per_trade self →
  (∀ a data, (a, data) ∈ market_data → 0 < Close data) →
  solvent (portfolio (run_daily_execution json_dump now self market_data w).1.1).
Proof.
  intros Hsolv Hrisk Hclose. unfold run_daily_execution.
  set (P := λ st : @LiveDecisionEngine Qc * @World Text * list (@LedgerCall Qc),
              solvent (portfolio st.1.1)
              ∧ risk_per_trade st.1.1 = risk_per_trade self).
  enough (P (entry_pass json_dump now
               (exit_pass json_dump now (self, w, []) market_data)
               market_data)) as [Hgoal _] by exact Hgoal.
  apply (fold_left_invariant (entry_step json_dump now) P).
  - intros st [a data] Hin [Hs Hr].
    destruct (entry_step_config json_dump now st (a, data)) as [_ Hr'].
    split; [|congruence].
    destruct (entry_step_cases json_dump now st a data)
      as [-> | (q & r & _ & _ & _ & _ & _ & Q & -> & ->)]; [exact Hs|].
    cbn [fst snd set_portfolio portfolio].
    assert (0 <= q) as Hq.
    { destruct Hs as [Hcash _].
      eapply sized_quantity_nonneg; [exact Hcash | | | exact Q].
      - now rewrite Hr.
      - now apply (Hclose a). }
    pose proof (apply_op_solvent json_dump now (portfolio st.1.1, st.1.2)
                  (OpBuy a (Close data) q default_fee_rate) Hs Hq) as Hbuy.
    cbn [apply_op fst snd] in Hbuy.
    now destruct (execute_buy _ _ _ _ _ _ _ _) as [[ok pm] w1].
  - apply (fold_left_invariant (exit_step json_dump now) P); [|now split].
    intros st [a data] Hin [Hs Hr].
    destruct (exit_step_config json_dump now st (a, data)) as [_ Hr'].
    split; [|congruence].
    pose proof (apply_op_solvent json_dump now (portfolio st.1.1, st.1.2)
                  (OpSell a (Close data) default_fee_rate) Hs) as Hsell.
    cbn [apply_op fst snd sound_op] in Hsell.
    destruct (exit_step_cases json_dump now st a data)
      as [-> | (pos & s1 & w1 & Hheld & _ & -> & -> & ->)]; [exact Hs|].
    cbn [fst snd set_portfolio portfolio].
    rewrite execute_sell_eq in Hsell. unfold held in Hheld.
    rewrite Hheld in Hsell. apply Hsell. split.
    + now apply Qclt_le_weak, (Hclose a).
    + apply default_fee_rate_small.
Qed.

End ExactEngine.

(** ** The staging file and the closed trades *)

Section Bookkeeping.

Context {N : Type} `{Num N} {Text : Type}.
Variable json_dump : @PortfolioState N -> Text.
Variable now : nat -> string.

(** X19.  No call leaves a staging file behind: when there is none before a
    sequence of purchases and sales, there is none after each of them. *)
Theorem staging_file_removed ops (st : @PortfolioManager N * @World Text) :
  files st.2 !! (filename st.1 ++ ".tmp")%string = None →
  Forall (λ st', files st'.2 !! (filename st'.1 ++ ".tmp")%string = None)
         (run_ops json_dump now ops st).
Proof.
  apply (run_ops_invariant json_dump now
           (λ st', files st'.2 !! (filename st'.1 ++ ".tmp")%string = None)).
  intros st1 op Hst.
  destruct (apply_op_cases json_dump now st1 op) as [-> | (s1 & -> & _)];
    [exact Hst|].
  cbn [fst snd filename]. apply saved_world_staging.
Qed.

Lemma sales_made_app (l1 l2 : list (@LedgerCall N)) :
  sales_made (l1 ++ l2) = (sales_made l1 + sales_made l2)%nat.
Proof. unfold sales_made. now rewrite List.filter_app, length_app. Qed.

(** X20.  Every sale the loop asks for is carried out: after a cycle the
    history is longer by exactly the number of sale calls of the cycle, so
    no sale call is refused by the ledger and no purchase closes a trade. *)
Theorem cycle_closes_each_sale self market_data (w : @World Text) :
  length (trade_history (run_daily_execution json_dump now self market_data w))
  = (length (history (state (portfolio self)))
     + sales_made (run_daily_execution json_dump now self market_data w).2)%nat.
Proof.
  unfold run_daily_execution.
  set (P := λ st : @LiveDecisionEngine N * @World Text * list (@LedgerCall N),
              length (trade_history st)
              = (length (history (state (portfolio self)))
                 + sales_made st.2)%nat).
  apply (fold_left_invariant (entry_step json_dump now) P).
  - intros st [a data] _ Hst. unfold P in *.
    rewrite entry_step_history, Hst. f_equal.
    destruct (entry_step_cases json_dump now st a data)
      as [-> | (q & r & _ & _ & _ & _ & _ & _ & _ & ->)]; [reflexivity|].
    cbn [snd]. rewrite sales_made_app. cbn. lia.
  - apply (fold_left_invariant (exit_step json_dump now) P).
    + intros st [a data] _ Hst. unfold P in *.
      destruct (exit_step_cases json_dump now st a data)
        as [-> | (pos & s1 & w1 & _ & _ & -> & _ & ->)]; [exact Hst|].
      cbn [snd]. rewrite sales_made_app. unfold trade_history in *.
      cbn [fst snd set_portfolio portfolio state saved_state sold history
           set_last_updated].
      rewrite length_app, Hst. cbn. lia.
    + unfold P, trade_history. cbn. lia.
Qed.

End Bookkeeping.

(** ** Runs of the further properties *)

Lemma other_files_untouched_witness :
  Forall (λ st', files st'.2 !! "notes.json" = files shared_world !! "notes.json"
                 ∧ filename st'.1 = filename three_positions.1)
    (run_ops run_dump stamp
       [OpSell "SPY" (of_Z 510) default_fee_rate;
        OpBuy "GC=F" (of_Z 2000) (of_Z 1) default_fee_rate]
       (three_positions.1, shared_world)).
Proof.
  refine (other_files_untouched run_dump stamp _
            (three_positions.1, shared_world) "notes.json" _ _).
  - vm_compute. discriminate.
  - vm_compute. discriminate.
Defined.

Lemma restart_recovers_state_witness :
  ∃ p w',
    PortfolioManager_init run_dump run_load stamp plain_paths
      "portfolio_state.json" (of_Z 10000 : float) empty_world
    = (Returned p, w')
    ∧ let st := run_all run_dump stamp
                  [OpBuy "SPY" (of_Z 500) (of_Z 4) default_fee_rate;
                   OpSell "SPY" (of_Z 510) default_fee_rate] (p, w') in
      PortfolioManager_init run_dump run_load stamp plain_paths
        "portfolio_state.json" (of_Z 500) st.2
      = (Returned {| filename := "portfolio_state.json";
                     initial_capital := of_Z 500; state := state st.1 |},
         st.2).
Proof.
  eexists _, _. split.
  2: { refine (restart_recovers_state run_dump run_load stamp plain_paths _
                 "portfolio_state.json" (of_Z 10000) empty_world _ _ _
                 (of_Z 500) _).
       - intros s. reflexivity.
       - vm_compute. reflexivity. }
  vm_compute. reflexivity.
Defined.

Lemma buy_sell_positions_witness :
  let rb := execute_buy run_dump stamp three_positions.1 "SPY" (of_Z 500)
              (of_Z 1) default_fee_rate three_positions.2 in
  positions (state (execute_sell run_dump stamp rb.1.2 "SPY" (of_Z 510)
                      default_fee_rate rb.2).1.2)
  = delete "SPY" (positions (state three_positions.1)).
Proof.
  cbv zeta.
  refine (proj1 (proj2 (buy_sell_positions run_dump stamp three_positions.1
                          "SPY" (of_Z 500) (of_Z 1) default_fee_rate
                          (of_Z 510) default_fee_rate three_positions.2 _))).
  vm_compute. reflexivity.
Defined.

Lemma cycle_keeps_cap_witness :
  (Z.of_nat (open_count
               (run_daily_execution run_dump stamp engine_at_cap
                  stop_and_breakout three_positions.2))
   <= max_positions engine_at_cap)%Z.
Proof.
  refine (cycle_keeps_cap run_dump stamp engine_at_cap stop_and_breakout
            three_positions.2 _).
  vm_compute. discriminate.
Defined.

Lemma cycle_skips_missing_data_witness :
  held (run_daily_execution run_dump stamp engine_at_cap stop_and_breakout
          three_positions.2) "BTC-USD"
  = get_position (portfolio engine_at_cap) "BTC-USD".
Proof.
  refine (proj1 (cycle_skips_missing_data run_dump stamp engine_at_cap
                   stop_and_breakout three_positions.2 "BTC-USD" _)).
  simpl. rewrite !elem_of_cons, elem_of_nil.
  intros [E | [E | []]]; discriminate.
Defined.

Lemma no_sale_and_purchase_witness :
  Buy "SPY" (of_Z 400) (of_Z 1)
  ∉ (run_daily_execution run_dump stamp engine_at_cap stop_and_breakout
       three_positions.2).2.
Proof.
  refine (no_sale_and_purchase run_dump stamp engine_at_cap
            stop_and_breakout three_positions.2 "SPY" (of_Z 400) (of_Z 400)
            (of_Z 1) _ _).
  - simpl. repeat constructor; rewrite ?elem_of_cons, ?elem_of_nil;
      intros H; repeat destruct H as [H | H]; try discriminate; exact H.
  - vm_compute. constructor.
Defined.

Lemma stop_loss_exits_witness :
  held (run_daily_execution run_dump stamp engine_at_cap stop_and_breakout
          three_positions.2) "SPY" = None.
Proof.
  refine (stop_loss_exits run_dump stamp engine_at_cap stop_and_breakout
            three_positions.2 "SPY"
            {| Close := of_Z 400; Max_50 := of_Z 520; Min_20 := of_Z 450;
               ADX := of_Z 30 |} _ _ _).
  - simpl. repeat constructor; rewrite ?elem_of_cons, ?elem_of_nil;
      intros H; repeat destruct H as [H | H]; try discriminate; exact H.
  - constructor.
  - vm_compute. reflexivity.
Defined.

Lemma nan_indicators_never_trade_witness :
  Forall (λ c, ¬ buys "GC=F" c)
    (run_daily_execution run_dump stamp paper_engine warming_up
       empty_world).2.
Proof.
  refine (proj1 (nan_indicators_never_trade run_dump stamp paper_engine
                   warming_up empty_world "GC=F" _)).
  intros data Hin. apply list_elem_of_singleton in Hin.
  injection Hin as ->. vm_compute. reflexivity.
Defined.

Lemma cycle_keeps_solvent_witness :
  solvent
    (portfolio (run_daily_execution run_dump stamp (@paper_engine Qc _)
                  breakout empty_world).1.1).
Proof.
  refine (cycle_keeps_solvent run_dump stamp paper_engine breakout
            empty_world _ _ _).
  - split; [vm_compute; discriminate | apply map_Forall_empty].
  - vm_compute. discriminate.
  - intros a data Hin. apply list_elem_of_singleton in Hin.
    injection Hin as _ ->. vm_compute. reflexivity.
Defined.

Lemma sized_risk_within_budget_witness :
  (of_Z 20 * (of_Z 100 - of_Z 90) <= of_Z 10000 * dec 2 2)%Qc.
Proof.
  refine (proj1 (sized_risk_within_budget (of_Z 10000) (dec 2 2) (of_Z 100)
                   (of_Z 90) (of_Z 20) _)).
  exact size_position_example_exact.
Defined.

Lemma capped_purchase_rejected_witness :
  execute_buy run_dump stamp (fresh (of_Z 10000 : Qc)) "GC=F" (of_Z 100)
    (of_Z 100) default_fee_rate empty_world
  = (false, fresh (of_Z 10000), empty_world).
Proof.
  refine (proj2 (capped_purchase_rejected run_dump stamp
                   (fresh (of_Z 10000 : Qc)) "GC=F" (dec 2 2) (of_Z 100)
                   (of_Z 99) default_fee_rate (of_Z 100) empty_world
                   _ _ _ _ _)).
  - vm_compute. reflexivity.
  - vm_compute. reflexivity.
  - vm_compute. reflexivity.
  - vm_compute. reflexivity.
  - rewrite size_position_eq. vm_compute. f_equal. now apply Qc_is_canon.
Defined.

Lemma staging_file_removed_witness :
  Forall (λ st', files st'.2 !! (filename st'.1 ++ ".tmp")%string = None)
    (run_ops run_dump stamp
       [OpBuy "SPY" (of_Z 500) (of_Z 4) default_fee_rate;
        OpSell "SPY" (of_Z 510) default_fee_rate]
       (fresh (of_Z 10000 : float), empty_world)).
Proof.
  refine (staging_file_removed run_dump stamp _
            (fresh (of_Z 10000 : float), empty_world) _).
  reflexivity.
Defined.

(** C8 as stated fails for a name in a directory that does not exist: there
    is no persisted record, and the call neither persists nor returns a
    state; the [FileNotFoundError] of [open] escapes, from the constructor
    too, and no file is written. *)
Lemma load_or_create_no_directory :
  let w := @empty_world float in
  let fname := "no_such_dir/portfolio_state.json"%string in
  files w !! fname = None
  ∧ ∃ w', _load_or_create run_dump run_load stamp no_such_dir fname
            (of_Z 10000) w = (Raised "FileNotFoundError", w')
          ∧ PortfolioManager_init run_dump run_load stamp no_such_dir fname
              (of_Z 10000) w = (Raised "FileNotFoundError", w')
          ∧ files w' = ∅.
Proof.
  cbv zeta. split; [reflexivity|].
  eexists. split; [vm_compute; reflexivity|].
  split; vm_compute; reflexivity.
Qed.

Lemma load_or_create_spec_witness :
  ∃ s w',
    _load_or_create run_dump run_load stamp plain_paths
      "portfolio_state.json" (of_Z 10000 : float) empty_world
    = (Returned s, w')
    ∧ cash s = of_Z 10000 ∧ positions s = ∅ ∧ history s = []
    ∧ files w' !! "portfolio_state.json" = Some (run_dump s).
Proof.
  destruct (load_or_create_spec run_dump run_load stamp plain_paths
              "portfolio_state.json" (of_Z 10000 : float) empty_world)
    as (s & w' & Hload & _ & Hrest).
  exists s, w'. split; [exact Hload | exact Hrest].
Defined.

(** A file that is not JSON stops the constructor with [exit(1)]; a file
    that is not text stops it with a [UnicodeDecodeError]; the self-test
    ends in the same way. *)
Example corrupt_file_stops :
  let broken text : @World (Parsed (@PortfolioState float)) :=
    {| files := {[ "test_paper_trading.json"%string := text ]}; ticks := 0 |} in
  state_manager_main disk_dump disk_load stamp plain_paths (broken NotJson)
  = (Exited 1, broken NotJson)
  ∧ state_manager_main disk_dump disk_load stamp plain_paths (broken NotText)
    = (Raised "UnicodeDecodeError", broken NotText).
Proof. cbv zeta. split; reflexivity. Qed.

(** The self-test on an empty directory: the purchase and the sale are
    made, and the cash ends at 10240.625. *)
Example state_manager_main_run :
  ∃ p w',
    state_manager_main run_dump run_load stamp plain_paths
      (@empty_world float) = (Returned p, w')
    ∧ get_position p "BTC-USD" = None
    ∧ length (history (state p)) = 1%nat
    ∧ cash (state p) = dec 10240625 3.
Proof.
  eexists _, _. split; [vm_compute; reflexivity|].
  repeat split; vm_compute; reflexivity.
Qed.
